(** * Clay: the deformation, elastic-simulation and history engine of [src/main.js]

    A shallow embedding of the sculpting core of the clay application:
    [sculpt], [updateJellyPhysics], [saveToHistory], [undo], [resetShape],
    [changeShape], [changeMaterial] and [initJellyPhysics], together with the
    properties the specification states about them.

    Modelling conventions.
    - A JavaScript number is a real number ([R]); the rounding done by a
      [Float32Array] store and by double arithmetic is not represented, so an
      equation proved here is the exact counterpart of one that the program
      satisfies up to floating-point tolerance.
    - A position attribute array holds three floats per vertex; it is a list
      of [Vec3] records, item [i] standing for the array cells [3i], [3i+1]
      and [3i+2].  A write outside a typed array is silently dropped by the
      language, which is what the list insertion [<[i:=v]>] does.
    - Every buffer kept by the program ([historyStack] entries,
      [originalPositions], [restPositions]) is created by
      [new Float32Array(...)], a copy; no two of them alias, so buffers are
      plain values.
    - An operation that can raise returns a [result]; an exception carries
      the state the program is left in, since an event handler that throws
      does not roll its writes back. *)

From Stdlib Require Import Reals Lra Lia ZArith.
From stdpp Require Import base list.

Open Scope R_scope.

(** ** Data model *)

Record Vec3 : Type := mkVec3 { vx : R; vy : R; vz : R }.

(** A vertex buffer: the vertices in index order. *)
Abbreviation Buffer := (list Vec3) (only parsing).

Inductive Material : Type := Clay | Gold | Glass | Chrome | Jelly.

Inductive Shape : Type := Cylinder | Sphere | Cone | Cube | Torus.

(** [MATERIALS[m].isJelly] *)
Definition isJelly (m : Material) : bool :=
  match m with
  | Jelly => true
  | Clay | Gold | Glass | Chrome => false
  end.

Definition Material_eqb (a b : Material) : bool :=
  match a, b with
  | Clay, Clay | Gold, Gold | Glass, Glass | Chrome, Chrome | Jelly, Jelly => true
  | _, _ => false
  end.

Definition Shape_eqb (a b : Shape) : bool :=
  match a, b with
  | Cylinder, Cylinder | Sphere, Sphere | Cone, Cone | Cube, Cube | Torus, Torus => true
  | _, _ => false
  end.

(** The mutable part of [CONFIG]: the two sliders. *)
Record Config : Type := mkConfig { sculptStrength : R; sculptRadius : R }.

Definition minRadius : R := 0.2.
Definition maxRadius : R := 3.5.
Definition MAX_HISTORY : nat := 20.

(** The module-level variables of [main.js] that the engine reads and writes.
    [positions] is [clayMesh.geometry.attributes.position.array]. *)
Record State : Type := mkState {
  config : Config;
  currentMaterial : Material;
  currentShape : Shape;
  positions : Buffer;
  originalPositions : option Buffer;
  velocities : option Buffer;
  restPositions : option Buffer;
  historyStack : list Buffer;
  isSculpting : bool
}.

Inductive JsError : Type := TypeError | RangeError.

(** Outcome of a function body: it returns a value, or an exception escapes;
    both leave a state.  [NotANumber] marks a run that would store a NaN,
    a number the model does not have (see [jellyLoop]); no reachable state
    produces it ([reachable_representable]). *)
Inductive result (A : Type) : Type :=
| Returns (a : A) (s : State)
| Throws (e : JsError) (s : State)
| NotANumber.
Arguments Returns {A} a s.
Arguments Throws {A} e s.
Arguments NotANumber {A}.

(** The state the program is left in. *)
Definition final_state {A} (o : result A) : option State :=
  match o with
  | Returns _ s => Some s
  | Throws _ s => Some s
  | NotANumber => None
  end.

(** ** Typed-array primitives *)

Definition zeroVec : Vec3 := mkVec3 0 0 0.

(** [new Float32Array(n)]: [n] zeroed cells (here [count] vertices). *)
Definition zeros (count : nat) : Buffer := replicate count zeroVec.

(** [target.set(src)]: a [RangeError] when the source is longer than the
    target, otherwise the source overwrites the front of the target. *)
Definition typed_set (target src : Buffer) : JsError + Buffer :=
  if (length target <? length src)%nat then inl RangeError
  else inr (src ++ drop (length src) target).

(** [buf.fill(0)] *)
Definition fill0 (buf : Buffer) : Buffer := map (fun _ => zeroVec) buf.

(** ** Numeric primitives of the runtime *)

(** [Math.atan2(y, x)] on real numbers. *)
Definition atan2 (y x : R) : R :=
  if Rlt_dec 0 x then atan (y / x)
  else if Rlt_dec x 0 then
    (if Rle_dec 0 y then atan (y / x) + PI else atan (y / x) - PI)
  else if Rlt_dec 0 y then PI / 2
  else if Rlt_dec y 0 then - (PI / 2)
  else 0.

(** ** Field updates of the state *)

Definition with_config (c : Config) (s : State) : State :=
  mkState c (currentMaterial s) (currentShape s) (positions s)
    (originalPositions s) (velocities s) (restPositions s) (historyStack s)
    (isSculpting s).

Definition with_positions (p : Buffer) (s : State) : State :=
  mkState (config s) (currentMaterial s) (currentShape s) p
    (originalPositions s) (velocities s) (restPositions s) (historyStack s)
    (isSculpting s).

Definition with_velocities (v : option Buffer) (s : State) : State :=
  mkState (config s) (currentMaterial s) (currentShape s) (positions s)
    (originalPositions s) v (restPositions s) (historyStack s) (isSculpting s).

Definition with_restPositions (r : option Buffer) (s : State) : State :=
  mkState (config s) (currentMaterial s) (currentShape s) (positions s)
    (originalPositions s) (velocities s) r (historyStack s) (isSculpting s).

Definition with_historyStack (h : list Buffer) (s : State) : State :=
  mkState (config s) (currentMaterial s) (currentShape s) (positions s)
    (originalPositions s) (velocities s) (restPositions s) h (isSculpting s).

Definition with_currentMaterial (m : Material) (s : State) : State :=
  mkState (config s) m (currentShape s) (positions s)
    (originalPositions s) (velocities s) (restPositions s) (historyStack s)
    (isSculpting s).

(** ** Elastic simulator *)

(** [initJellyPhysics]: a zeroed velocity buffer of [count] vertices and a
    copy of the live buffer as rest positions. *)
Definition initJellyPhysics (s : State) : State :=
  with_restPositions (Some (positions s))
    (with_velocities (Some (zeros (length (positions s)))) s).

Definition stiffness : R := 15.0.
Definition damping : R := 0.85.
Definition maxVelocity : R := 2.0.

(** Body of the loop of [updateJellyPhysics] for one vertex with position
    [p], velocity [v] and rest position [r]; the result is the new velocity
    and the new position. *)
Definition jellyVertex (delta : R) (p v r : Vec3) : Vec3 * Vec3 :=
  let dx := vx r - vx p in
  let dy := vy r - vy p in
  let dz := vz r - vz p in
  let v1x := vx v + dx * stiffness * delta in
  let v1y := vy v + dy * stiffness * delta in
  let v1z := vz v + dz * stiffness * delta in
  let v2x := v1x * damping in
  let v2y := v1y * damping in
  let v2z := v1z * damping in
  let v3x := Rmax (- maxVelocity) (Rmin maxVelocity v2x) in
  let v3y := Rmax (- maxVelocity) (Rmin maxVelocity v2y) in
  let v3z := Rmax (- maxVelocity) (Rmin maxVelocity v2z) in
  (mkVec3 v3x v3y v3z,
   mkVec3 (vx p + v3x * delta) (vy p + v3y * delta) (vz p + v3z * delta)).

(** [for (let i = ...; i < count; i++)], [fuel] being [count - i].  Reading a
    cell outside [velocities] or [restPositions] gives [undefined], and the
    arithmetic then stores a NaN; the model has no such number and answers
    [None] there. *)
Fixpoint jellyLoop (fuel i : nat) (delta : R) (rest pos vel : Buffer)
  : option (Buffer * Buffer) :=
  match fuel with
  | O => Some (pos, vel)
  | S fuel' =>
      match pos !! i, vel !! i, rest !! i with
      | Some p, Some v, Some r =>
          let '(v', p') := jellyVertex delta p v r in
          jellyLoop fuel' (S i) delta rest (<[i := p']> pos) (<[i := v']> vel)
      | _, _, _ => None
      end
  end.

Definition updateJellyPhysics (delta : R) (s : State) : result unit :=
  if negb (isJelly (currentMaterial s)) then Returns tt s
  else
    match velocities s with
    | None => Returns tt s
    | Some vel =>
        match restPositions s with
        | None =>
            (* [restPositions[i3]] on [null], at the first iteration *)
            match positions s with
            | [] => Returns tt s
            | _ :: _ => Throws TypeError s
            end
        | Some rest =>
            match jellyLoop (length (positions s)) 0 delta rest (positions s) vel with
            | Some (pos', vel') =>
                Returns tt (with_velocities (Some vel') (with_positions pos' s))
            | None => NotANumber
            end
        end
    end.

(** ** History manager *)

(** [historyStack.push(new Float32Array(positions))], then one [shift()] when
    the length exceeds [MAX_HISTORY]. *)
Definition saveToHistory (s : State) : State :=
  let pushed := historyStack s ++ [positions s] in
  with_historyStack
    (if (MAX_HISTORY <? length pushed)%nat then drop 1 pushed else pushed) s.

(** [Array.prototype.pop]: the last element and the array without it. *)
Definition pop {A} (l : list A) : option (A * list A) :=
  match reverse l with
  | [] => None
  | x :: r => Some (x, reverse r)
  end.

Definition undo (s : State) : result bool :=
  match pop (historyStack s) with
  | None => Returns false s
  | Some (previousState, h') =>
      let s0 := with_historyStack h' s in
      match typed_set (positions s0) previousState with
      | inl e => Throws e s0
      | inr pos' =>
          let s1 := with_positions pos' s0 in
          match restPositions s1 with
          | None => Returns true s1
          | Some rest =>
              match typed_set rest previousState with
              | inl e => Throws e s1
              | inr rest' => Returns true (with_restPositions (Some rest') s1)
              end
          end
      end
  end.

Definition resetShape (s : State) : result unit :=
  match originalPositions s with
  | None => Returns tt s
  | Some orig =>
      match typed_set (positions s) orig with
      | inl e => Throws e s
      | inr pos' =>
          let s1 := with_historyStack [] (with_positions pos' s) in
          match restPositions s1 with
          | None => Returns tt s1
          | Some rest =>
              match typed_set rest orig with
              | inl e => Throws e s1
              | inr rest' =>
                  let s2 := with_restPositions (Some rest') s1 in
                  match velocities s2 with
                  | None => Throws TypeError s2   (* [velocities.fill] on [null] *)
                  | Some vel => Returns tt (with_velocities (Some (fill0 vel)) s2)
                  end
              end
          end
      end
  end.

(** ** Deformation engine *)

(** The buffers a [sculpt] call writes while it loops over the vertices. *)
Record SculptBuffers : Type := mkSculptBuffers {
  sb_positions : Buffer;
  sb_rest : option Buffer;
  sb_velocities : option Buffer;
  sb_touched : bool   (* [needsUpdate], and [isSculpting = true] *)
}.

(** Body of the loop of [sculpt] for vertex [i]. *)
Definition sculptVertex (cfg : Config) (targetRadius targetY : R) (i : nat)
    (b : SculptBuffers) : SculptBuffers :=
  match sb_positions b !! i with
  | None => b
  | Some p =>
      let y := vy p in
      let dy := Rabs (y - targetY) in
      if Rlt_dec dy (sculptRadius cfg) then
        let x := vx p in
        let z := vz p in
        let currentRadius := sqrt (x * x + z * z) in
        let factor := exp (- (dy * dy) / 0.1) in
        let speed := sculptStrength cfg in
        let newRadius :=
          currentRadius + (targetRadius - currentRadius) * factor * speed in
        let angle := atan2 z x in
        let pos' :=
          <[i := mkVec3 (cos angle * newRadius) y (sin angle * newRadius)]>
            (sb_positions b) in
        match sb_rest b with
        | None => mkSculptBuffers pos' None (sb_velocities b) true
        | Some rest =>
            let rest' :=
              alter (fun r => mkVec3 (cos angle * newRadius) (vy r)
                                     (sin angle * newRadius)) i rest in
            match sb_velocities b with
            | None => mkSculptBuffers pos' (Some rest') None true
            | Some vel =>
                let impulse := (targetRadius - currentRadius) * factor * 0.5 in
                let vel' :=
                  alter (fun v => mkVec3 (vx v + cos angle * impulse) (vy v)
                                         (vz v + sin angle * impulse)) i vel in
                mkSculptBuffers pos' (Some rest') (Some vel') true
            end
        end
      else b
  end.

Fixpoint sculptLoop (fuel i : nat) (cfg : Config) (targetRadius targetY : R)
    (b : SculptBuffers) : SculptBuffers :=
  match fuel with
  | O => b
  | S fuel' =>
      sculptLoop fuel' (S i) cfg targetRadius targetY
        (sculptVertex cfg targetRadius targetY i b)
  end.

(** [targetRadius] of [sculpt]: [|x|] clamped to [minRadius, maxRadius]. *)
Definition clampTargetRadius (x : R) : R :=
  Rmax minRadius (Rmin maxRadius (Rabs x)).

(** [sculpt(intersectPoint)].  The calls made once a vertex moved
    ([computeVertexNormals], the haptic pulse, the sound) belong to the
    presentation layer and are left out. *)
Definition sculpt (intersectPoint : Vec3) (s : State) : State :=
  let targetRadius := clampTargetRadius (vx intersectPoint) in
  let targetY := vy intersectPoint in
  let count := length (positions s) in
  let b := sculptLoop count 0 (config s) targetRadius targetY
             (mkSculptBuffers (positions s) (restPositions s) (velocities s)
                false) in
  mkState (config s) (currentMaterial s) (currentShape s) (sb_positions b)
    (originalPositions s) (sb_velocities b) (sb_rest b) (historyStack s)
    (isSculpting s || sb_touched b).

(** ** Shape and material transitions *)

Section Engine.

(** [createGeometry] builds the vertex buffer of a shape with the geometry
    classes of the rendering library; the engine only relies on it being a
    function of the shape. *)
Variable createGeometry : Shape -> Buffer.

Definition changeShape (newShape : Shape) (s : State) : State :=
  if Shape_eqb newShape (currentShape s) then s
  else
    let fresh := createGeometry newShape in
    let s1 :=
      mkState (config s) (currentMaterial s) newShape fresh (Some fresh)
        (velocities s) (restPositions s) [] (isSculpting s) in
    if isJelly (currentMaterial s1) then initJellyPhysics s1 else s1.

Definition changeMaterial (newMaterial : Material) (s : State) : State :=
  if Material_eqb newMaterial (currentMaterial s) then s
  else
    let s1 := with_currentMaterial newMaterial s in
    if isJelly (currentMaterial s1) then initJellyPhysics s1
    else with_velocities None s1.

(** The state after the module has been loaded. *)
Definition initialState : State :=
  mkState (mkConfig 0.05 0.5) Clay Cylinder (createGeometry Cylinder)
    (Some (createGeometry Cylinder)) None None [] false.

(** ** Reachable states *)

(** What the user interface can ask of the engine: a sculpt call of the
    animation loop, the end of a gesture, the undo and reset buttons, the
    shape and material buttons, a tick of the elastic simulator, and the two
    sliders. *)
Inductive Op : Type :=
| OpSculpt (intersectPoint : Vec3)
| OpSaveToHistory
| OpUndo
| OpResetShape
| OpChangeShape (newShape : Shape)
| OpChangeMaterial (newMaterial : Material)
| OpUpdateJellyPhysics (delta : R)
| OpSetStrength (v : R)
| OpSetRadius (v : R).

Definition run_op (op : Op) (s : State) : result unit :=
  match op with
  | OpSculpt p => Returns tt (sculpt p s)
  | OpSaveToHistory => Returns tt (saveToHistory s)
  | OpUndo =>
      match undo s with
      | Returns _ s' => Returns tt s'
      | Throws e s' => Throws e s'
      | NotANumber => NotANumber
      end
  | OpResetShape => resetShape s
  | OpChangeShape sh => Returns tt (changeShape sh s)
  | OpChangeMaterial m => Returns tt (changeMaterial m s)
  | OpUpdateJellyPhysics delta => updateJellyPhysics delta s
  | OpSetStrength v => Returns tt (with_config (mkConfig v (sculptRadius (config s))) s)
  | OpSetRadius v => Returns tt (with_config (mkConfig (sculptStrength (config s)) v) s)
  end.

(** The program goes on after an exception escaped an event handler, in the
    state the handler left. *)
Inductive Reachable : State -> Prop :=
| reach_init : Reachable initialState
| reach_step s op s' :
    Reachable s -> final_state (run_op op s) = Some s' -> Reachable s'.

(** Runs a list of requests from a state, ignoring exceptions as the event
    loop does. *)
Fixpoint run_ops (ops : list Op) (s : State) : option State :=
  match ops with
  | [] => Some s
  | op :: ops' =>
      match final_state (run_op op s) with
      | Some s' => run_ops ops' s'
      | None => None
      end
  end.

End Engine.

(** ** The specification's vocabulary *)

(** Distance of a vertex from the rotation axis, and its angle around it. *)
Definition radiusOf (v : Vec3) : R := sqrt (vx v * vx v + vz v * vz v).
Definition angleOf (v : Vec3) : R := atan2 (vz v) (vx v).

(** [clamp(x, lo, hi)] as the specification uses it. *)
Definition clamp (x lo hi : R) : R :=
  if Rlt_dec x lo then lo else if Rlt_dec hi x then hi else x.

(** The vertex update of the deformation engine in the specification's
    words (steps 1 to 5 of [sculpt(target)]), for a tool of the given strength
    and influence radius. *)
Definition spec_sculptVertex (strength influenceRadius : R) (target v : Vec3)
  : Vec3 :=
  let dy := Rabs (vy v - vy target) in
  if Rge_dec dy influenceRadius then v
  else
    let targetRadius := clamp (Rabs (vx target)) 0.2 3.5 in
    let factor := exp (- dy ^ 2 / 0.1) in
    let currentRadius := sqrt (vx v ^ 2 + vz v ^ 2) in
    let newRadius :=
      currentRadius + (targetRadius - currentRadius) * factor * strength in
    mkVec3 (cos (atan2 (vz v) (vx v)) * newRadius) (vy v)
           (sin (atan2 (vz v) (vx v)) * newRadius).


(** [n] sculpt calls at one target. *)
Fixpoint sculptN (n : nat) (target : Vec3) (s : State) : State :=
  match n with
  | O => s
  | S n' => sculpt target (sculptN n' target s)
  end.

(** [n] steps of the elastic simulator, each with its own [delta]. *)
Fixpoint stepN (deltas : list R) (s : State) : result unit :=
  match deltas with
  | [] => Returns tt s
  | delta :: more =>
      match updateJellyPhysics delta s with
      | Returns _ s' => stepN more s'
      | other => other
      end
  end.

(** The consistency of the buffers that the engine maintains: the history is
    bounded and its snapshots, like the original snapshot, have the size of
    the live buffer; velocities exist only for the elastic material, and then
    both elastic buffers have the size of the live buffer. *)
Record Consistent (s : State) : Prop := mkConsistent {
  cons_history_bound : (length (historyStack s) <= MAX_HISTORY)%nat;
  cons_history_sizes :
    Forall (fun snap => length snap = length (positions s)) (historyStack s);
  cons_original :
    exists orig, originalPositions s = Some orig /\
                 length orig = length (positions s);
  cons_velocities :
    forall vel, velocities s = Some vel ->
      isJelly (currentMaterial s) = true /\
      length vel = length (positions s) /\
      exists rest, restPositions s = Some rest /\
                   length rest = length (positions s)
}.

(** A small geometry factory on which the statements below are run: a
    cylinder of two vertices, a cube of three, one vertex for the others. *)
Definition sampleGeometry (shape : Shape) : Buffer :=
  match shape with
  | Cylinder => [mkVec3 1.5 0 0; mkVec3 0 1 1.5]
  | Cube => [mkVec3 1.5 0 1.5; mkVec3 (-1.5) 0 1.5; mkVec3 1.5 1 (-1.5)]
  | Sphere | Cone | Torus => [mkVec3 1 0 0]
  end.

(** The requests that leave rest positions behind: jelly is selected, then
    clay. *)
Definition jellyThenClay : list Op :=
  [OpChangeMaterial Jelly; OpChangeMaterial Clay].

(** Two optional buffers are both absent, or both present with one size. *)
Definition same_size (a b : option Buffer) : Prop :=
  match a, b with
  | None, None => True
  | Some x, Some y => length x = length y
  | _, _ => False
  end.

(** Sample inputs: the initial state on [sampleGeometry], the same state once
    jelly is selected, and a target to the right of the axis at height 0. *)
Definition sampleState : State := initialState sampleGeometry.
Definition sampleJellyState : State := changeMaterial Jelly sampleState.
Definition sampleTarget : Vec3 := mkVec3 3 0 0.
Definition sampleVertex : Vec3 := mkVec3 1.5 0 0.

(** ** The elastic side of a sculpt call, in plain terms *)

(** What [sculpt] leaves in [restPositions] for a vertex at position [p]
    whose rest position was [r]: the new [x] and [z] of the vertex, the old
    rest height. *)
Definition spec_sculptRest (strength influenceRadius : R) (target p r : Vec3)
  : Vec3 :=
  if Rge_dec (Rabs (vy p - vy target)) influenceRadius then r
  else
    mkVec3 (vx (spec_sculptVertex strength influenceRadius target p)) (vy r)
           (vz (spec_sculptVertex strength influenceRadius target p)).

(** What [sculpt] leaves in [velocities] for a vertex at position [p] whose
    velocity was [v]: an impulse of half the weighted radius difference,
    along the direction of the vertex. *)
Definition spec_sculptVelocity (influenceRadius : R) (target p v : Vec3) : Vec3 :=
  let dy := Rabs (vy p - vy target) in
  if Rge_dec dy influenceRadius then v
  else
    let impulse :=
      (clamp (Rabs (vx target)) 0.2 3.5 - radiusOf p) * exp (- dy ^ 2 / 0.1) * 0.5 in
    mkVec3 (vx v + cos (angleOf p) * impulse) (vy v)
           (vz v + sin (angleOf p) * impulse).

(** The rest positions are absent or belong to a live elastic state. *)
Definition restInSync (s : State) : Prop :=
  restPositions s = None \/ velocities s <> None.

Section Runs.

Variable createGeometry : Shape -> list Vec3.

(** Runs a list of requests and stops at the first one that does not
    return. *)
Fixpoint run_ops_returning (ops : list Op) (s : State) : option State :=
  match ops with
  | [] => Some s
  | op :: ops' =>
      match run_op createGeometry op s with
      | Returns _ s' => run_ops_returning ops' s'
      | Throws _ _ | NotANumber => None
      end
  end.

End Runs.

(** ** The first version of the engine ([sculpt] before materials, history
    and elastic buffers were added) *)

Module FirstVersion.

(** Body of the loop for vertex [i] of [positionAttribute]. *)
Definition sculptVertex (cfg : Config) (targetRadius targetY : R) (i : nat)
    (pos : list Vec3) : list Vec3 :=
  match pos !! i with
  | None => pos
  | Some p =>
      let y := vy p in
      let dy := Rabs (y - targetY) in
      if Rlt_dec dy (sculptRadius cfg) then
        let x := vx p in
        let z := vz p in
        let currentRadius := sqrt (x * x + z * z) in
        let factor := exp (- (dy * dy) / 0.1) in
        let speed := sculptStrength cfg in
        let newRadius :=
          currentRadius + (targetRadius - currentRadius) * factor * speed in
        let angle := atan2 z x in
        <[i := mkVec3 (cos angle * newRadius) y (sin angle * newRadius)]> pos
      else pos
  end.

Fixpoint sculptLoop (fuel i : nat) (cfg : Config) (targetRadius targetY : R)
    (pos : list Vec3) : list Vec3 :=
  match fuel with
  | O => pos
  | S fuel' =>
      sculptLoop fuel' (S i) cfg targetRadius targetY
        (sculptVertex cfg targetRadius targetY i pos)
  end.

Definition sculpt (cfg : Config) (intersectPoint : Vec3) (pos : list Vec3)
  : list Vec3 :=
  let targetRadius :=
    Rmax minRadius (Rmin maxRadius (Rabs (vx intersectPoint))) in
  let targetY := vy intersectPoint in
  sculptLoop (length pos) 0 cfg targetRadius targetY pos.

End FirstVersion.

(** ** Pointer, gestures and the animation loop *)

(** [mouse.x] and [mouse.y] of the [mousemove], [touchstart] and [touchmove]
    handlers, from the client coordinates and the window size. *)
Definition pointerToDevice (clientX clientY innerWidth innerHeight : R) : R * R :=
  ((clientX / innerWidth) * 2 - 1, - (clientY / innerHeight) * 2 + 1).

Definition clayHeight : R := 5.

(** One frame of [animate]: the elastic step, then a sculpt call when the
    ray hits the plane at a height inside the band around the clay, the
    pointer is down and the settings menu is not in use.  [hit] is the first
    intersection reported by the raycaster, if any. *)
Definition animate (delta : R) (hit : option Vec3)
    (isMouseDown isInteractingWithGUI : bool) (s : State) : result unit :=
  match updateJellyPhysics delta s with
  | Returns _ s1 =>
      match hit with
      | Some point =>
          if Rlt_dec (vy point) (clayHeight / 2 + 1) then
            if Rgt_dec (vy point) (- clayHeight / 2 - 1) then
              if isMouseDown && negb isInteractingWithGUI
              then Returns tt (sculpt point s1)
              else Returns tt s1
            else Returns tt s1
          else Returns tt s1
      | None => Returns tt s1
      end
  | other => other
  end.

Definition with_isSculpting (b : bool) (s : State) : State :=
  mkState (config s) (currentMaterial s) (currentShape s) (positions s)
    (originalPositions s) (velocities s) (restPositions s) (historyStack s) b.

(** The engine together with the variables of the pointer handlers; times
    are the milliseconds of [Date.now()]. *)
Record App : Type := mkApp {
  engine : State;
  isMouseDown : bool;
  sculptStartTime : Z;
  isInteractingWithGUI : bool
}.

(** [mousedown] and [touchstart] *)
Definition onPointerDown (now : Z) (a : App) : App :=
  mkApp (engine a) true now (isInteractingWithGUI a).

(** [mouseup] and [touchend] *)
Definition onPointerUp (now : Z) (a : App) : App :=
  let s1 :=
    if isSculpting (engine a) && (100 <? now - sculptStartTime a)%Z
    then saveToHistory (engine a) else engine a in
  mkApp (with_isSculpting false s1) false (sculptStartTime a)
    (isInteractingWithGUI a).

(** [touchcancel] *)
Definition onTouchCancel (a : App) : App :=
  mkApp (with_isSculpting false (engine a)) false (sculptStartTime a)
    (isInteractingWithGUI a).

(** [mouseenter], [touchstart] and [mouseleave], [touchend], [touchcancel] of
    the settings container *)
Definition onSettings (inside : bool) (a : App) : App :=
  mkApp (engine a) (isMouseDown a) (sculptStartTime a) inside.

Inductive Event : Type :=
| EvPointerDown (now : Z)
| EvPointerUp (now : Z)
| EvTouchCancel
| EvSettings (inside : bool)
| EvAnimate (delta : R) (hit : option Vec3)
| EvUndo
| EvResetShape
| EvChangeShape (newShape : Shape)
| EvChangeMaterial (newMaterial : Material)
| EvSetStrength (v : R)
| EvSetRadius (v : R).

Definition with_engine (s : State) (a : App) : App :=
  mkApp s (isMouseDown a) (sculptStartTime a) (isInteractingWithGUI a).

Section Events.

Variable createGeometry : Shape -> list Vec3.

(** The state after an event has been handled, exception or not; [None] when
    the run is outside the model ([NotANumber]). *)
Definition handle (ev : Event) (a : App) : option App :=
  match ev with
  | EvPointerDown now => Some (onPointerDown now a)
  | EvPointerUp now => Some (onPointerUp now a)
  | EvTouchCancel => Some (onTouchCancel a)
  | EvSettings inside => Some (onSettings inside a)
  | EvAnimate delta hit =>
      option_map (fun s => with_engine s a)
        (final_state
           (animate delta hit (isMouseDown a) (isInteractingWithGUI a) (engine a)))
  | EvUndo =>
      option_map (fun s => with_engine s a)
        (final_state (run_op createGeometry OpUndo (engine a)))
  | EvResetShape =>
      option_map (fun s => with_engine s a)
        (final_state (run_op createGeometry OpResetShape (engine a)))
  | EvChangeShape sh =>
      option_map (fun s => with_engine s a)
        (final_state (run_op createGeometry (OpChangeShape sh) (engine a)))
  | EvChangeMaterial m =>
      option_map (fun s => with_engine s a)
        (final_state (run_op createGeometry (OpChangeMaterial m) (engine a)))
  | EvSetStrength v =>
      option_map (fun s => with_engine s a)
        (final_state (run_op createGeometry (OpSetStrength v) (engine a)))
  | EvSetRadius v =>
      option_map (fun s => with_engine s a)
        (final_state (run_op createGeometry (OpSetRadius v) (engine a)))
  end.

Definition initialApp : App :=
  mkApp (initialState createGeometry) false 0%Z false.

Inductive AppReachable : App -> Prop :=
| app_init : AppReachable initialApp
| app_step a ev a' :
    AppReachable a -> handle ev a = Some a' -> AppReachable a'.

Fixpoint handle_all (evs : list Event) (a : App) : option App :=
  match evs with
  | [] => Some a
  | ev :: more =>
      match handle ev a with
      | Some a' => handle_all more a'
      | None => None
      end
  end.

End Events.

(** An animation frame in which [sculpt] is not called because of the ray:
    it misses the plane, or hits it outside the band around the clay. *)
Definition idleFrame (ev : Event) : Prop :=
  exists delta hit,
    ev = EvAnimate delta hit /\
    forall point, hit = Some point ->
      ~ (vy point < clayHeight / 2 + 1 /\ vy point > - clayHeight / 2 - 1).

(** ** Haptic feedback *)

Definition HAPTIC_COOLDOWN : Z := 50.

(** [triggerHaptic(duration)] at time [now]: the new [lastHapticTime] and the
    duration passed to [navigator.vibrate], if it was called.  [canVibrate]
    tells whether the browser has [navigator.vibrate]. *)
Definition triggerHaptic (canVibrate : bool) (now duration lastHapticTime : Z)
  : Z * option Z :=
  if (now - lastHapticTime <? HAPTIC_COOLDOWN)%Z then (lastHapticTime, None)
  else if canVibrate then (now, Some duration)
  else (lastHapticTime, None).

(** The calls, given as (time, duration), that reached [navigator.vibrate]. *)
Fixpoint hapticPulses (canVibrate : bool) (calls : list (Z * Z))
    (lastHapticTime : Z) : list (Z * Z) :=
  match calls with
  | [] => []
  | (now, duration) :: more =>
      match triggerHaptic canVibrate now duration lastHapticTime with
      | (last', Some d) => (now, d) :: hapticPulses canVibrate more last'
      | (last', None) => hapticPulses canVibrate more last'
      end
  end.

(** Consecutive entries are at least [gap] apart in time. *)
Fixpoint spaced (gap : Z) (pulses : list (Z * Z)) : Prop :=
  match pulses with
  | [] => True
  | (t, _) :: more =>
      match more with
      | [] => True
      | (t', _) :: _ => (t + gap <= t')%Z /\ spaced gap more
      end
  end.

(** Sample inputs for the gesture handlers. *)
Definition sampleApp : App := initialApp sampleGeometry.

(** The sample application in the middle of a gesture: the pointer went down
    at time 0 and one frame sculpted at the sample target. *)
Definition sampleGestureApp : App :=
  mkApp (sculpt sampleTarget sampleState) true 0%Z false.

(** Requests that never select jelly, and calls of [triggerHaptic] given as
    (time, duration). *)
Definition sampleRequests : list Op :=
  [OpSculpt sampleTarget; OpSaveToHistory; OpChangeMaterial Gold;
   OpChangeShape Cube; OpUndo; OpResetShape].
Definition sampleHapticCalls : list (Z * Z) :=
  [(1000, 10); (1020, 5); (1049, 5); (1050, 30); (1200, 50)]%Z.

(** * Properties *)

(** ** Typed arrays and lists *)

Lemma typed_set_same_length (target src : Buffer) :
  length target = length src -> typed_set target src = inr src.
Proof.
  intros Hlen. unfold typed_set.
  rewrite Hlen, Nat.ltb_irrefl.
  rewrite <- Hlen, drop_ge by lia.
  now rewrite app_nil_r.
Qed.

Lemma typed_set_too_long (target src : Buffer) :
  (length target < length src)%nat -> typed_set target src = inl RangeError.
Proof.
  intros Hlen. unfold typed_set.
  apply Nat.ltb_lt in Hlen. now rewrite Hlen.
Qed.

Lemma typed_set_length (target src out : Buffer) :
  typed_set target src = inr out -> length out = length target.
Proof.
  unfold typed_set. destruct (Nat.ltb_spec (length target) (length src)); [discriminate|].
  intros [= <-]. rewrite length_app, length_drop. lia.
Qed.

Lemma pop_nil {A} : pop (@nil A) = None.
Proof. reflexivity. Qed.

Lemma pop_snoc {A} (l : list A) (x : A) : pop (l ++ [x]) = Some (x, l).
Proof. unfold pop. now rewrite reverse_snoc, reverse_involutive. Qed.

Lemma pop_Some {A} (l l' : list A) (x : A) :
  pop l = Some (x, l') -> l = l' ++ [x].
Proof.
  unfold pop. destruct (reverse l) as [|y r] eqn:E; [discriminate|].
  intros [= <- <-].
  rewrite <- (reverse_involutive l), E. now rewrite reverse_cons.
Qed.

Lemma pop_None {A} (l : list A) : pop l = None -> l = [].
Proof.
  unfold pop. destruct (reverse l) eqn:E; [|discriminate].
  intros _. rewrite <- (reverse_involutive l), E. reflexivity.
Qed.

Lemma length_fill0 (buf : Buffer) : length (fill0 buf) = length buf.
Proof. unfold fill0. now rewrite length_map. Qed.

Lemma fill0_zeros (buf : Buffer) : fill0 buf = zeros (length buf).
Proof.
  unfold fill0, zeros. induction buf as [|v buf IH]; simpl; [reflexivity|].
  now rewrite IH.
Qed.

Lemma same_size_refl (a : option Buffer) : same_size a a.
Proof. destruct a; simpl; auto. Qed.

Lemma same_size_trans (a b c : option Buffer) :
  same_size a b -> same_size b c -> same_size a c.
Proof. destruct a, b, c; simpl; try tauto; congruence. Qed.

(** ** The deformation engine *)

Lemma clamp_max_min (x lo hi : R) :
  lo <= hi -> clamp x lo hi = Rmax lo (Rmin hi x).
Proof.
  intros Hle. unfold clamp, Rmax, Rmin.
  repeat (destruct Rlt_dec || destruct Rle_dec); lra.
Qed.

Lemma clampTargetRadius_spec (x : R) :
  clampTargetRadius x = clamp (Rabs x) 0.2 3.5.
Proof.
  unfold clampTargetRadius, minRadius, maxRadius.
  rewrite clamp_max_min; [reflexivity | lra].
Qed.

Lemma clampTargetRadius_range (x : R) :
  minRadius <= clampTargetRadius x <= maxRadius.
Proof.
  unfold clampTargetRadius, minRadius, maxRadius, Rmax, Rmin.
  repeat destruct Rle_dec; lra.
Qed.

(** One iteration of the loop rewrites vertex [i] as the specification says
    and no other vertex. *)
Lemma sculptVertex_lookup (cfg : Config) (target : Vec3) (i j : nat)
    (b : SculptBuffers) :
  sb_positions
    (sculptVertex cfg (clampTargetRadius (vx target)) (vy target) i b) !! j =
  if decide (i = j)
  then spec_sculptVertex (sculptStrength cfg) (sculptRadius cfg) target
         <$> sb_positions b !! j
  else sb_positions b !! j.
Proof.
  unfold sculptVertex.
  destruct (sb_positions b !! i) as [p|] eqn:Hp.
  - assert (Hi : (i < length (sb_positions b))%nat)
      by (apply lookup_lt_is_Some; eauto).
    unfold spec_sculptVertex.
    destruct (Rlt_dec (Rabs (vy p - vy target)) (sculptRadius cfg)) as [Hin|Hout].
    + assert (Hpos :
        forall r v t,
          sb_positions
            (match sb_rest b with
             | None => mkSculptBuffers r None (sb_velocities b) true
             | Some rest =>
                 match sb_velocities b with
                 | None => mkSculptBuffers r (Some (v rest)) None true
                 | Some vel => mkSculptBuffers r (Some (v rest)) (Some (t vel)) true
                 end
             end) = r)
        by (intros; destruct (sb_rest b), (sb_velocities b); reflexivity).
      cbv zeta. rewrite Hpos. rewrite list_lookup_insert.
      destruct (decide (i = j)) as [->|Hne].
      * rewrite decide_True by (split; [reflexivity | exact Hi]).
        rewrite Hp. simpl.
        destruct (Rge_dec (Rabs (vy p - vy target)) (sculptRadius cfg)); [lra|].
        rewrite clampTargetRadius_spec, !Rmult_1_r.
        reflexivity.
      * rewrite decide_False by (intros [? _]; contradiction). reflexivity.
    + destruct (decide (i = j)) as [->|Hne]; [|reflexivity].
      rewrite Hp. simpl.
      destruct (Rge_dec (Rabs (vy p - vy target)) (sculptRadius cfg)); [reflexivity|lra].
  - destruct (decide (i = j)) as [->|Hne]; [|reflexivity].
    rewrite Hp. reflexivity.
Qed.

Lemma sculptVertex_sizes (cfg : Config) (tR tY : R) (i : nat) (b : SculptBuffers) :
  length (sb_positions (sculptVertex cfg tR tY i b)) = length (sb_positions b) /\
  same_size (sb_rest (sculptVertex cfg tR tY i b)) (sb_rest b) /\
  same_size (sb_velocities (sculptVertex cfg tR tY i b)) (sb_velocities b).
Proof.
  unfold sculptVertex.
  destruct (sb_positions b !! i); [|auto using same_size_refl].
  destruct Rlt_dec; [|auto using same_size_refl].
  destruct (sb_rest b), (sb_velocities b); simpl;
    rewrite ?length_insert, ?length_alter; auto.
Qed.

Lemma sculptLoop_lookup (cfg : Config) (target : Vec3) (fuel i j : nat)
    (b : SculptBuffers) :
  sb_positions
    (sculptLoop fuel i cfg (clampTargetRadius (vx target)) (vy target) b) !! j =
  if decide (i <= j < i + fuel)%nat
  then spec_sculptVertex (sculptStrength cfg) (sculptRadius cfg) target
         <$> sb_positions b !! j
  else sb_positions b !! j.
Proof.
  revert i b. induction fuel as [|fuel IH]; intros i b; simpl.
  - rewrite decide_False by lia. reflexivity.
  - rewrite IH. rewrite !sculptVertex_lookup.
    destruct (decide (i = j)) as [->|Hne].
    + rewrite decide_False by lia. rewrite decide_True by lia. reflexivity.
    + destruct (decide (S i <= j < S i + fuel)%nat).
      * rewrite decide_True by lia. reflexivity.
      * rewrite decide_False by lia. reflexivity.
Qed.

Lemma sculptLoop_sizes (cfg : Config) (tR tY : R) (fuel i : nat) (b : SculptBuffers) :
  length (sb_positions (sculptLoop fuel i cfg tR tY b)) = length (sb_positions b) /\
  same_size (sb_rest (sculptLoop fuel i cfg tR tY b)) (sb_rest b) /\
  same_size (sb_velocities (sculptLoop fuel i cfg tR tY b)) (sb_velocities b).
Proof.
  revert i b. induction fuel as [|fuel IH]; intros i b; simpl.
  - auto using same_size_refl.
  - destruct (IH (S i) (sculptVertex cfg tR tY i b)) as (Hp & Hr & Hv).
    destruct (sculptVertex_sizes cfg tR tY i b) as (Hp' & Hr' & Hv').
    repeat split; [congruence | |]; eauto using same_size_trans.
Qed.

Lemma sculpt_lookup (target : Vec3) (s : State) (i : nat) :
  positions (sculpt target s) !! i =
  spec_sculptVertex (sculptStrength (config s)) (sculptRadius (config s)) target
    <$> positions s !! i.
Proof.
  unfold sculpt. cbn [positions]. rewrite sculptLoop_lookup. cbn [sb_positions].
  destruct (decide (0 <= i < 0 + length (positions s))%nat) as [Hin|Hout];
    [reflexivity|].
  rewrite (lookup_ge_None_2 (positions s) i) by lia. reflexivity.
Qed.

Lemma sculpt_frame (target : Vec3) (s : State) :
  config (sculpt target s) = config s /\
  currentMaterial (sculpt target s) = currentMaterial s /\
  currentShape (sculpt target s) = currentShape s /\
  originalPositions (sculpt target s) = originalPositions s /\
  historyStack (sculpt target s) = historyStack s /\
  length (positions (sculpt target s)) = length (positions s) /\
  same_size (restPositions (sculpt target s)) (restPositions s) /\
  same_size (velocities (sculpt target s)) (velocities s).
Proof.
  unfold sculpt. simpl.
  pose proof (sculptLoop_sizes (config s) (clampTargetRadius (vx target))
                (vy target) (length (positions s)) 0
                (mkSculptBuffers (positions s) (restPositions s) (velocities s) false))
    as (Hp & Hr & Hv).
  simpl in *. repeat split; assumption.
Qed.

(** ** Polar coordinates, and the radius under repeated calls *)

Lemma atan_nonpos (t : R) : t <= 0 -> atan t <= 0.
Proof.
  intros [Hlt | ->].
  - left. rewrite <- atan_0. now apply atan_increasing.
  - rewrite atan_0. lra.
Qed.

Lemma atan_pos (t : R) : 0 < t -> 0 < atan t.
Proof. intros Hlt. rewrite <- atan_0. now apply atan_increasing. Qed.

(** [Math.atan2] answers in the interval (-PI, PI]. *)
Lemma atan2_range (y x : R) : - PI < atan2 y x <= PI.
Proof.
  pose proof PI_RGT_0 as Hpi.
  unfold atan2.
  destruct (Rlt_dec 0 x) as [Hx|Hx].
  - pose proof (atan_bound (y / x)). lra.
  - destruct (Rlt_dec x 0) as [Hx'|Hx'].
    + pose proof (atan_bound (y / x)) as Hb.
      assert (Hinv : / x < 0) by now apply Rinv_lt_0_compat.
      destruct (Rle_dec 0 y) as [Hy|Hy].
      * assert (Hq : y / x <= 0) by (unfold Rdiv; nra).
        pose proof (atan_nonpos _ Hq). lra.
      * assert (Hq : 0 < y / x) by (unfold Rdiv; nra).
        pose proof (atan_pos _ Hq). lra.
    + destruct (Rlt_dec 0 y); [lra|]. destruct (Rlt_dec y 0); lra.
Qed.

Lemma polar_ratio (a b r : R) :
  0 < r -> cos b <> 0 -> sin a = - sin b -> cos a = - cos b ->
  sin a * r / (cos a * r) = tan b.
Proof.
  intros Hr Hc Hs Hc'. unfold tan. rewrite Hs, Hc'. field. split; lra.
Qed.

(** A point at angle [a] in (-PI, PI] and at a positive distance from the axis
    has angle [a]. *)
Lemma atan2_polar (a r : R) :
  - PI < a <= PI -> 0 < r -> atan2 (sin a * r) (cos a * r) = a.
Proof.
  intros [Hlo Hhi] Hr.
  pose proof PI_RGT_0 as Hpi.
  destruct (Rlt_dec a (- (PI / 2))) as [Hq3|Hq3].
  { (* third quadrant *)
    assert (Hc : cos a < 0).
    { rewrite <- cos_neg. apply cos_lt_0; lra. }
    assert (Hs : sin a < 0) by (apply sin_lt_0_var; lra).
    unfold atan2.
    destruct (Rlt_dec 0 (cos a * r)); [nra|].
    destruct (Rlt_dec (cos a * r) 0); [|nra].
    destruct (Rle_dec 0 (sin a * r)); [nra|].
    rewrite (polar_ratio a (a + PI) r); try lra.
    - rewrite atan_tan; lra.
    - rewrite neg_cos. lra.
    - rewrite neg_sin. lra.
    - rewrite neg_cos. lra. }
  destruct (Req_dec a (- (PI / 2))) as [Hm|Hm].
  { subst a. rewrite cos_neg, sin_neg, cos_PI2, sin_PI2, Rmult_0_l.
    replace (- (1) * r) with (- r) by ring.
    unfold atan2.
    destruct (Rlt_dec 0 0); [lra|].
    destruct (Rlt_dec 0 (- r)); [lra|].
    destruct (Rlt_dec (- r) 0); lra. }
  destruct (Rlt_dec a (PI / 2)) as [Hq1|Hq1].
  { (* right half plane *)
    assert (Hc : 0 < cos a) by (apply cos_gt_0; lra).
    unfold atan2.
    destruct (Rlt_dec 0 (cos a * r)); [|nra].
    replace (sin a * r / (cos a * r)) with (tan a)
      by (unfold tan; field; split; lra).
    apply atan_tan. lra. }
  destruct (Req_dec a (PI / 2)) as [Hp|Hp].
  { subst a. rewrite cos_PI2, sin_PI2, Rmult_0_l, Rmult_1_l.
    unfold atan2.
    destruct (Rlt_dec 0 0); [lra|].
    destruct (Rlt_dec 0 r); lra. }
  (* second quadrant *)
  assert (Hc : cos a < 0) by (apply cos_lt_0; lra).
  assert (Hs : 0 <= sin a) by (apply sin_ge_0; lra).
  unfold atan2.
  destruct (Rlt_dec 0 (cos a * r)); [nra|].
  destruct (Rlt_dec (cos a * r) 0); [|nra].
  destruct (Rle_dec 0 (sin a * r)); [|nra].
  rewrite (polar_ratio a (a - PI) r); try lra.
  - rewrite atan_tan; lra.
  - rewrite cos_minus, cos_PI, sin_PI. lra.
  - rewrite sin_minus, cos_PI, sin_PI. lra.
  - rewrite cos_minus, cos_PI, sin_PI. lra.
Qed.

Lemma polar_radius (a r : R) :
  0 <= r -> sqrt (cos a * r * (cos a * r) + sin a * r * (sin a * r)) = r.
Proof.
  intros Hr.
  replace (cos a * r * (cos a * r) + sin a * r * (sin a * r))
    with (((sin a)² + (cos a)²) * (r * r)) by (unfold Rsqr; ring).
  rewrite sin2_cos2, Rmult_1_l. now apply sqrt_square.
Qed.

Lemma radiusOf_nonneg (v : Vec3) : 0 <= radiusOf v.
Proof. apply sqrt_pos. Qed.

(** The Gaussian falloff is a weight in (0, 1]. *)
Lemma falloff_range (dy : R) : 0 < exp (- dy ^ 2 / 0.1) <= 1.
Proof.
  split; [apply exp_pos|].
  assert (Hle : - dy ^ 2 / 0.1 <= 0) by (pose proof (pow2_ge_0 dy); lra).
  destruct Hle as [Hlt | Heq].
  - left. rewrite <- exp_0. now apply exp_increasing.
  - rewrite Heq, exp_0. lra.
Qed.

(** The blend moves a radius toward the target without passing it. *)
Lemma blend_between (c t k : R) :
  0 < k <= 1 ->
  Rmin c t <= c + (t - c) * k <= Rmax c t /\
  Rabs (t - (c + (t - c) * k)) <= Rabs (t - c).
Proof.
  intros Hk. unfold Rmin, Rmax, Rabs.
  destruct (Rle_dec c t); repeat destruct Rcase_abs; nra.
Qed.

Lemma clamp_range (x lo hi : R) : lo <= hi -> lo <= clamp x lo hi <= hi.
Proof. intros Hle. unfold clamp. repeat destruct Rlt_dec; lra. Qed.

Lemma spec_sculptVertex_outside (strength radius : R) (target v : Vec3) :
  Rabs (vy v - vy target) >= radius ->
  spec_sculptVertex strength radius target v = v.
Proof.
  intros Hout. unfold spec_sculptVertex.
  destruct Rge_dec; [reflexivity | contradiction].
Qed.

(** Inside the cutoff the vertex keeps its height and its angle, and its
    radius is blended toward the target radius. *)
Lemma spec_sculptVertex_inside (strength radius : R) (target v : Vec3) :
  Rabs (vy v - vy target) < radius ->
  0 < strength <= 1 ->
  let v' := spec_sculptVertex strength radius target v in
  vy v' = vy v /\
  angleOf v' = angleOf v /\
  radiusOf v' =
    radiusOf v +
    (clamp (Rabs (vx target)) 0.2 3.5 - radiusOf v) *
    (exp (- Rabs (vy v - vy target) ^ 2 / 0.1) * strength).
Proof.
  intros Hin Hs. unfold spec_sculptVertex.
  destruct Rge_dec as [Hge|_]; [lra|].
  replace (vx v ^ 2 + vz v ^ 2) with (vx v * vx v + vz v * vz v) by ring.
  fold (radiusOf v).
  set (t := clamp (Rabs (vx target)) 0.2 3.5).
  set (f := exp (- Rabs (vy v - vy target) ^ 2 / 0.1)).
  pose proof (falloff_range (Rabs (vy v - vy target))) as Hf. fold f in Hf.
  pose proof (clamp_range (Rabs (vx target)) 0.2 3.5 ltac:(lra)) as Ht. fold t in Ht.
  pose proof (radiusOf_nonneg v) as Hc.
  assert (Hk : 0 < f * strength <= 1) by nra.
  assert (Hnew : 0 < radiusOf v + (t - radiusOf v) * f * strength).
  { replace (radiusOf v + (t - radiusOf v) * f * strength)
      with (radiusOf v * (1 - f * strength) + t * (f * strength)) by ring.
    nra. }
  cbv zeta. unfold angleOf. cbn [vx vy vz].
  split; [reflexivity|]. split.
  - apply atan2_polar; [apply atan2_range | exact Hnew].
  - unfold radiusOf at 1. cbn [vx vz]. rewrite polar_radius by lra. ring.
Qed.

(** Inside or outside the cutoff, the update keeps the angle and the height
    of a vertex. *)
Lemma spec_sculptVertex_keeps (strength radius : R) (target v : Vec3) :
  0 < strength <= 1 ->
  angleOf (spec_sculptVertex strength radius target v) = angleOf v /\
  vy (spec_sculptVertex strength radius target v) = vy v.
Proof.
  intros Hs.
  destruct (Rlt_dec (Rabs (vy v - vy target)) radius) as [Hin|Hout].
  - destruct (spec_sculptVertex_inside strength radius target v Hin Hs)
      as (Hy & Ha & _).
    split; assumption.
  - rewrite spec_sculptVertex_outside by lra. split; reflexivity.
Qed.

(** C1. One [sculpt(target)] call rewrites every vertex of the buffer as the
    specification says: a vertex whose vertical distance [dy] to the target is
    at least the influence radius is unchanged; any other vertex keeps its
    [y], is placed at [(cos(atan2(z, x)) * newRadius, y, sin(atan2(z, x)) * newRadius)]
    with [newRadius = currentRadius + (targetRadius - currentRadius) *
    exp(-dy^2/0.1) * strength] and [targetRadius = clamp(|target.x|, 0.2, 3.5)],
    and, for a strength in (0, 1], is then at distance [newRadius] from the
    axis.  The call is defined for every target, the buffer keeps its size,
    and the radius aimed at always lies in [0.2, 3.5]. *)
Theorem sculpt_vertex_update (target : Vec3) (s : State) :
  (forall i : nat,
     positions (sculpt target s) !! i =
     spec_sculptVertex (sculptStrength (config s)) (sculptRadius (config s))
       target <$> positions s !! i) /\
  (forall (i : nat) (v : Vec3),
     positions s !! i = Some v ->
     Rabs (vy v - vy target) >= sculptRadius (config s) ->
     positions (sculpt target s) !! i = Some v) /\
  (forall (i : nat) (v : Vec3),
     0 < sculptStrength (config s) <= 1 ->
     positions s !! i = Some v ->
     Rabs (vy v - vy target) < sculptRadius (config s) ->
     exists v',
       positions (sculpt target s) !! i = Some v' /\
       vy v' = vy v /\
       radiusOf v' =
         radiusOf v +
         (clamp (Rabs (vx target)) 0.2 3.5 - radiusOf v) *
         (exp (- Rabs (vy v - vy target) ^ 2 / 0.1) * sculptStrength (config s))) /\
  length (positions (sculpt target s)) = length (positions s) /\
  clampTargetRadius (vx target) = clamp (Rabs (vx target)) 0.2 3.5 /\
  0.2 <= clamp (Rabs (vx target)) 0.2 3.5 <= 3.5.
Proof.
  split; [intros i; apply sculpt_lookup|].
  split.
  { intros i v Hv Hout. rewrite sculpt_lookup, Hv. cbn.
    now rewrite spec_sculptVertex_outside. }
  split.
  { intros i v Hs Hv Hin. rewrite sculpt_lookup, Hv. cbn.
    eexists. split; [reflexivity|].
    destruct (spec_sculptVertex_inside _ _ target v Hin Hs) as (Hy & _ & Hr).
    split; assumption. }
  split; [apply sculpt_frame|].
  split; [apply clampTargetRadius_spec|].
  apply clamp_range. lra.
Qed.

(** C2. A [sculpt] call leaves the angle [atan2(z, x)] of every vertex (and
    its height) as it was, for a tool strength in (0, 1], which covers the
    range [0.01, 0.5] of the strength slider; numbers are real numbers here,
    so the equality is exact. *)
Theorem sculpt_preserves_angle (target : Vec3) (s : State) (i : nat)
    (v v' : Vec3) :
  0 < sculptStrength (config s) <= 1 ->
  positions s !! i = Some v ->
  positions (sculpt target s) !! i = Some v' ->
  angleOf v' = angleOf v /\ vy v' = vy v.
Proof.
  intros Hs Hv Hv'.
  rewrite sculpt_lookup, Hv in Hv'. cbn in Hv'.
  injection Hv' as <-.
  now apply spec_sculptVertex_keeps.
Qed.

Lemma sculptN_config (n : nat) (target : Vec3) (s : State) :
  config (sculptN n target s) = config s.
Proof.
  induction n as [|n IH]; simpl; [reflexivity|].
  destruct (sculpt_frame target (sculptN n target s)) as (Hc & _). congruence.
Qed.

(** The vertex stays at its height, hence inside the cutoff, call after
    call. *)
Lemma sculptN_vertex (n : nat) (target : Vec3) (s : State) (i : nat) (v : Vec3) :
  0 < sculptStrength (config s) <= 1 ->
  positions s !! i = Some v ->
  exists a, positions (sculptN n target s) !! i = Some a /\ vy a = vy v.
Proof.
  intros Hs Hv. induction n as [|n (a & Ha & Hy)]; simpl.
  - exists v. split; [assumption | reflexivity].
  - pose proof (sculpt_lookup target (sculptN n target s) i) as Hb.
    rewrite Ha in Hb. cbn in Hb.
    eexists. split; [exact Hb|].
    rewrite <- Hy. apply spec_sculptVertex_keeps.
    rewrite sculptN_config. exact Hs.
Qed.

(** One more call at the same target moves the radius of a vertex inside the
    cutoff toward the target radius, without passing it. *)
Lemma sculptN_step (n : nat) (target : Vec3) (s : State) (i : nat) (v a : Vec3) :
  0 < sculptStrength (config s) <= 1 ->
  positions s !! i = Some v ->
  Rabs (vy v - vy target) < sculptRadius (config s) ->
  positions (sculptN n target s) !! i = Some a ->
  exists b,
    positions (sculptN (S n) target s) !! i = Some b /\
    let targetRadius := clamp (Rabs (vx target)) 0.2 3.5 in
    Rmin (radiusOf a) targetRadius <= radiusOf b <= Rmax (radiusOf a) targetRadius /\
    Rabs (targetRadius - radiusOf b) <= Rabs (targetRadius - radiusOf a) /\
    (0.2 <= radiusOf a <= 3.5 -> 0.2 <= radiusOf b <= 3.5).
Proof.
  intros Hs Hv Hin Ha.
  destruct (sculptN_vertex n target s i v Hs Hv) as (a' & Ha' & Hy).
  assert (a' = a) by congruence. subst a'.
  cbn [sculptN]. rewrite sculpt_lookup, Ha, sculptN_config. cbn [fmap option_fmap option_map].
  eexists. split; [reflexivity|].
  assert (Hin' : Rabs (vy a - vy target) < sculptRadius (config s)) by (rewrite Hy; exact Hin).
  destruct (spec_sculptVertex_inside _ _ target a Hin' Hs) as (_ & _ & Hr).
  cbv zeta in Hr |- *. rewrite Hr.
  set (t := clamp (Rabs (vx target)) 0.2 3.5).
  pose proof (clamp_range (Rabs (vx target)) 0.2 3.5 ltac:(lra)) as Ht. fold t in Ht.
  pose proof (falloff_range (Rabs (vy a - vy target))) as Hf.
  set (f := exp (- Rabs (vy a - vy target) ^ 2 / 0.1)) in *.
  assert (Hk : 0 < f * sculptStrength (config s) <= 1) by nra.
  destruct (blend_between (radiusOf a) t _ Hk) as (Hbetween & Hcloser).
  split; [exact Hbetween|]. split; [exact Hcloser|].
  intros Hrange. unfold Rmin, Rmax in Hbetween.
  destruct (Rle_dec (radiusOf a) t); lra.
Qed.

(** A call multiplies the distance of the radius to the target radius by
    [1 - k], where [k] is the falloff at the height of the vertex times the
    strength. *)
Lemma sculpt_call_contracts (target : Vec3) (s : State) (i : nat) (a : Vec3) :
  0 < sculptStrength (config s) <= 1 ->
  positions s !! i = Some a ->
  Rabs (vy a - vy target) < sculptRadius (config s) ->
  exists b,
    positions (sculpt target s) !! i = Some b /\
    vy b = vy a /\
    clamp (Rabs (vx target)) 0.2 3.5 - radiusOf b =
      (clamp (Rabs (vx target)) 0.2 3.5 - radiusOf a) *
      (1 - exp (- Rabs (vy a - vy target) ^ 2 / 0.1) * sculptStrength (config s)).
Proof.
  intros Hs Ha Hin.
  rewrite sculpt_lookup, Ha. cbn [fmap option_fmap option_map].
  eexists. split; [reflexivity|].
  destruct (spec_sculptVertex_inside _ _ target a Hin Hs) as (Hy & _ & Hr).
  cbv zeta in Hy, Hr. split; [exact Hy|]. rewrite Hr. ring.
Qed.

Lemma contraction_strict (d k : R) :
  0 < k <= 0.5 -> d <> 0 -> Rabs (d * (1 - k)) < Rabs d.
Proof.
  intros Hk Hd. rewrite Rabs_mult, (Rabs_right (1 - k)) by lra.
  pose proof (Rabs_pos_lt d Hd). nra.
Qed.

Lemma falloff_strength_range (dy strength : R) :
  0.01 <= strength <= 0.5 -> 0 < exp (- dy ^ 2 / 0.1) * strength <= 0.5.
Proof. intros Hs. pose proof (falloff_range dy). nra. Qed.

(** C9. Repeated [sculpt] calls at one target, with a strength in
    [0.01, 0.5], for a vertex inside the influence cutoff.  Let
    [targetRadius = clamp(|target.x|, 0.2, 3.5)] and
    [k = exp(-dy^2/0.1) * strength], a number in (0, 0.5].  Every call
    multiplies the distance of the radius to [targetRadius] by [1 - k]: the
    new radius lies between the previous one and [targetRadius], and is
    strictly closer to it unless the radius is already [targetRadius]; after
    [n] calls the distance is the initial one times [(1 - k)^n]; and a radius
    that is in [0.2, 3.5] after some call is in [0.2, 3.5] after every later
    call.  The state [s] is arbitrary, so the statement about one call
    ([n = 0]) holds for a call made in any state, whatever ran before it. *)
Theorem sculpt_radius_monotone (target : Vec3) (s : State) (i : nat) (v : Vec3) :
  0.01 <= sculptStrength (config s) <= 0.5 ->
  positions s !! i = Some v ->
  Rabs (vy v - vy target) < sculptRadius (config s) ->
  let targetRadius := clamp (Rabs (vx target)) 0.2 3.5 in
  let k := exp (- Rabs (vy v - vy target) ^ 2 / 0.1) * sculptStrength (config s) in
  0 < k <= 0.5 /\
  (forall n : nat, exists a b,
     positions (sculptN n target s) !! i = Some a /\
     positions (sculptN (S n) target s) !! i = Some b /\
     targetRadius - radiusOf b = (targetRadius - radiusOf a) * (1 - k) /\
     (radiusOf a <> targetRadius ->
      Rabs (targetRadius - radiusOf b) < Rabs (targetRadius - radiusOf a)) /\
     Rmin (radiusOf a) targetRadius <= radiusOf b <= Rmax (radiusOf a) targetRadius /\
     Rabs (targetRadius - radiusOf b) <= Rabs (targetRadius - radiusOf a)) /\
  (forall n : nat, exists a,
     positions (sculptN n target s) !! i = Some a /\
     targetRadius - radiusOf a = (targetRadius - radiusOf v) * (1 - k) ^ n) /\
  (forall (n m : nat) (a b : Vec3),
     (n <= m)%nat ->
     positions (sculptN n target s) !! i = Some a ->
     positions (sculptN m target s) !! i = Some b ->
     0.2 <= radiusOf a <= 3.5 -> 0.2 <= radiusOf b <= 3.5).
Proof.
  intros Hs Hv Hin targetRadius k.
  assert (Hs' : 0 < sculptStrength (config s) <= 1) by lra.
  assert (Hk : 0 < k <= 0.5) by (apply falloff_strength_range; exact Hs).
  assert (Hcall : forall n a,
    positions (sculptN n target s) !! i = Some a ->
    exists b,
      positions (sculptN (S n) target s) !! i = Some b /\
      targetRadius - radiusOf b = (targetRadius - radiusOf a) * (1 - k)).
  { intros n a Ha.
    destruct (sculptN_vertex n target s i v Hs' Hv) as (a' & Ha' & Hy).
    assert (a' = a) by congruence. subst a'.
    destruct (sculpt_call_contracts target (sculptN n target s) i a)
      as (b & Hb & _ & Hr).
    - rewrite sculptN_config. exact Hs'.
    - exact Ha.
    - rewrite sculptN_config, Hy. exact Hin.
    - exists b. split; [exact Hb|].
      rewrite sculptN_config, Hy in Hr. exact Hr. }
  split; [exact Hk|]. split; [|split].
  - intros n.
    destruct (sculptN_vertex n target s i v Hs' Hv) as (a & Ha & _).
    destruct (sculptN_step n target s i v a Hs' Hv Hin Ha) as (b & Hb & H1 & H2 & _).
    destruct (Hcall n a Ha) as (b' & Hb' & Hr).
    assert (b' = b) by congruence. subst b'.
    exists a, b. split; [exact Ha|]. split; [exact Hb|]. split; [exact Hr|].
    split; [|split; [exact H1 | exact H2]].
    intros Hne. rewrite Hr. apply contraction_strict; [exact Hk|].
    intros Hzero. apply Hne. lra.
  - intros n. induction n as [|n (a & Ha & Hr)].
    + exists v. split; [exact Hv|]. cbn [pow]. ring.
    + destruct (Hcall n a Ha) as (b & Hb & Hr').
      exists b. split; [exact Hb|]. rewrite Hr', Hr. cbn [pow]. ring.
  - intros n m a b Hle Ha Hb Hrange.
    revert b Hb. induction Hle as [|m Hle IH]; intros b Hb.
    + congruence.
    + destruct (sculptN_vertex m target s i v Hs' Hv) as (c & Hc & _).
      destruct (sculptN_step m target s i v c Hs' Hv Hin Hc) as (b' & Hb' & _ & _ & Hkeep).
      assert (b' = b) by congruence. subst b'.
      apply Hkeep. apply (IH c Hc).
Qed.

(** ** The elastic simulator *)


(** A vertex at rest stays at rest. *)
Lemma jellyVertex_at_rest (delta : R) (p : Vec3) :
  jellyVertex delta p zeroVec p = (zeroVec, p).
Proof.
  unfold jellyVertex, stiffness, damping, maxVelocity, zeroVec. cbn [vx vy vz].
  replace (Rmax (- (2.0)) (Rmin 2.0 ((0 + (vx p - vx p) * 15.0 * delta) * 0.85)))
    with 0 by (unfold Rmax, Rmin; repeat destruct Rle_dec; lra).
  replace (Rmax (- (2.0)) (Rmin 2.0 ((0 + (vy p - vy p) * 15.0 * delta) * 0.85)))
    with 0 by (unfold Rmax, Rmin; repeat destruct Rle_dec; lra).
  replace (Rmax (- (2.0)) (Rmin 2.0 ((0 + (vz p - vz p) * 15.0 * delta) * 0.85)))
    with 0 by (unfold Rmax, Rmin; repeat destruct Rle_dec; lra).
  destruct p as [x y z]. cbn [vx vy vz].
  f_equal. f_equal; lra.
Qed.

(** With parallel buffers the loop runs to its end and rewrites the vertices
    from [i] on, each from its own position, velocity and rest position. *)
Lemma jellyLoop_spec (delta : R) (rest : list Vec3) (fuel i : nat)
    (pos vel : list Vec3) :
  (i + fuel)%nat = length pos ->
  length vel = length pos ->
  length rest = length pos ->
  exists pos' vel',
    jellyLoop fuel i delta rest pos vel = Some (pos', vel') /\
    length pos' = length pos /\
    length vel' = length vel /\
    forall j p v r,
      pos !! j = Some p -> vel !! j = Some v -> rest !! j = Some r ->
      pos' !! j = Some (if decide (i <= j)%nat
                        then snd (jellyVertex delta p v r) else p) /\
      vel' !! j = Some (if decide (i <= j)%nat
                        then fst (jellyVertex delta p v r) else v).
Proof.
  revert i pos vel. induction fuel as [|fuel IH]; intros i pos vel Hfuel Hvel Hrest.
  - exists pos, vel. cbn. repeat split; try reflexivity.
    + pose proof (lookup_lt_Some _ _ _ H). rewrite decide_False by lia. assumption.
    + pose proof (lookup_lt_Some _ _ _ H). rewrite decide_False by lia. assumption.
  - assert (Hi : (i < length pos)%nat) by lia.
    destruct (lookup_lt_is_Some_2 pos i Hi) as [p Hp].
    destruct (lookup_lt_is_Some_2 vel i ltac:(lia)) as [v Hv].
    destruct (lookup_lt_is_Some_2 rest i ltac:(lia)) as [r Hr].
    cbn [jellyLoop]. rewrite Hp, Hv, Hr.
    destruct (jellyVertex delta p v r) as [v1 p1] eqn:Hstep.
    destruct (IH (S i) (<[i:=p1]> pos) (<[i:=v1]> vel)
                ltac:(rewrite length_insert; lia)
                ltac:(rewrite !length_insert; exact Hvel)
                ltac:(rewrite length_insert; exact Hrest))
      as (pos' & vel' & Hrun & Hlp & Hlv & Hall).
    exists pos', vel'. rewrite length_insert in Hlp, Hlv.
    split; [exact Hrun|]. split; [exact Hlp|]. split; [exact Hlv|].
    intros j q w u Hq Hw Hu.
    destruct (decide (i = j)) as [<-|Hne].
    + assert (q = p) by congruence. assert (w = v) by congruence.
      assert (u = r) by congruence. subst q w u.
      assert (H1 : <[i:=p1]> pos !! i = Some p1)
        by (apply list_lookup_insert_eq; exact Hi).
      assert (H2 : <[i:=v1]> vel !! i = Some v1)
        by (apply list_lookup_insert_eq; lia).
      destruct (Hall i p1 v1 r H1 H2 Hr) as (Hp' & Hv').
      rewrite decide_False in Hp', Hv' by lia.
      rewrite !decide_True by lia. rewrite Hstep. cbn [fst snd]. split; assumption.
    + assert (H1 : <[i:=p1]> pos !! j = Some q)
        by (rewrite list_lookup_insert_ne by assumption; exact Hq).
      assert (H2 : <[i:=v1]> vel !! j = Some w)
        by (rewrite list_lookup_insert_ne by assumption; exact Hw).
      destruct (Hall j q w u H1 H2 Hu) as (Hp' & Hv').
      destruct (decide (S i <= j)%nat).
      * rewrite !decide_True by lia. split; assumption.
      * rewrite !decide_False by lia. split; assumption.
Qed.

(** A step of the simulator on parallel buffers. *)
Lemma updateJellyPhysics_parallel (delta : R) (s : State) (vel rest : list Vec3) :
  isJelly (currentMaterial s) = true ->
  velocities s = Some vel ->
  restPositions s = Some rest ->
  length vel = length (positions s) ->
  length rest = length (positions s) ->
  exists pos' vel',
    updateJellyPhysics delta s =
      Returns tt (with_velocities (Some vel') (with_positions pos' s)) /\
    length pos' = length (positions s) /\
    length vel' = length vel /\
    forall i p v r,
      positions s !! i = Some p -> vel !! i = Some v -> rest !! i = Some r ->
      pos' !! i = Some (snd (jellyVertex delta p v r)) /\
      vel' !! i = Some (fst (jellyVertex delta p v r)).
Proof.
  intros Hj Hvel Hrest Hlv Hlr.
  destruct (jellyLoop_spec delta rest (length (positions s)) 0 (positions s) vel
              ltac:(lia) Hlv Hlr)
    as (pos' & vel' & Hrun & Hlp & Hlv' & Hall).
  exists pos', vel'.
  unfold updateJellyPhysics. rewrite Hj, Hvel, Hrest, Hrun. cbn [negb].
  split; [reflexivity|]. split; [exact Hlp|]. split; [exact Hlv'|].
  intros i p v r Hp Hv Hr.
  destruct (Hall i p v r Hp Hv Hr) as (Hp' & Hv').
  rewrite decide_True in Hp', Hv' by lia. split; assumption.
Qed.

Lemma lookup_zeros (n i : nat) (v : Vec3) : zeros n !! i = Some v -> v = zeroVec.
Proof.
  unfold zeros. intros H. apply lookup_replicate in H. tauto.
Qed.

(** At rest, a step changes nothing. *)
Lemma updateJellyPhysics_at_rest (delta : R) (s : State) (vel rest : list Vec3) :
  isJelly (currentMaterial s) = true ->
  velocities s = Some vel ->
  restPositions s = Some rest ->
  positions s = rest ->
  vel = zeros (length (positions s)) ->
  updateJellyPhysics delta s = Returns tt s.
Proof.
  intros Hj Hvel Hrest Hpos Hzero.
  assert (Hlen : length vel = length (positions s))
    by (subst vel; unfold zeros; now rewrite length_replicate).
  assert (Hlen' : length rest = length (positions s)) by now subst rest.
  destruct (updateJellyPhysics_parallel delta s vel rest Hj Hvel Hrest Hlen Hlen')
    as (pos' & vel' & Hrun & Hlp & Hlv & Hall).
  rewrite Hrun. f_equal.
  assert (Hp : pos' = positions s).
  { apply list_eq_same_length with (length (positions s)); try assumption; [reflexivity|].
    intros i x y Hi Hx Hy.
    destruct (lookup_lt_is_Some_2 vel i ltac:(lia)) as [v Hv].
    assert (v = zeroVec) by (rewrite Hzero in Hv; eapply lookup_zeros; eauto). subst v.
    assert (Hr : rest !! i = Some y) by (rewrite <- Hpos; exact Hy).
    destruct (Hall i y zeroVec y Hy Hv Hr) as (Hp' & _).
    rewrite jellyVertex_at_rest in Hp'. cbn in Hp'. congruence. }
  assert (Hv : vel' = vel).
  { apply list_eq_same_length with (length vel); try assumption; [reflexivity|].
    intros i x y Hi Hx Hy.
    destruct (lookup_lt_is_Some_2 (positions s) i ltac:(lia)) as [p Hp'].
    assert (y = zeroVec) by (rewrite Hzero in Hy; eapply lookup_zeros; eauto). subst y.
    assert (Hr : rest !! i = Some p) by (rewrite <- Hpos; exact Hp').
    destruct (Hall i p zeroVec p Hp' Hy Hr) as (_ & Hv').
    rewrite jellyVertex_at_rest in Hv'. cbn in Hv'. congruence. }
  subst pos' vel'. destruct s; cbn in *. subst. reflexivity.
Qed.

(** ** The buffers stay consistent *)

Lemma Consistent_sculpt (target : Vec3) (s : State) :
  Consistent s -> Consistent (sculpt target s).
Proof.
  intros [Hb Hs (orig & Ho & Hol) Hv].
  destruct (sculpt_frame target s) as (_ & Hm & _ & Horig & Hh & Hlen & Hr & Hvel).
  constructor.
  - now rewrite Hh.
  - rewrite Hh, Hlen. exact Hs.
  - exists orig. rewrite Horig, Hlen. auto.
  - intros vel' Hvel'. rewrite Hvel' in Hvel.
    destruct (velocities s) as [vel|] eqn:Ev; [|contradiction].
    destruct (Hv vel eq_refl) as (Hj & Hlv & rest & Hrest & Hlr).
    rewrite Hrest in Hr.
    destruct (restPositions (sculpt target s)) as [rest'|]; [|contradiction].
    cbn in Hvel, Hr. rewrite Hm, Hlen.
    split; [exact Hj|]. split; [congruence|].
    exists rest'. split; [reflexivity | congruence].
Qed.

Lemma saveToHistory_history (s : State) :
  historyStack (saveToHistory s) =
  (if (length (historyStack s) <? MAX_HISTORY)%nat
   then historyStack s else drop 1 (historyStack s)) ++ [positions s].
Proof.
  unfold saveToHistory. cbn [historyStack with_historyStack].
  rewrite length_app. cbn [length].
  destruct (Nat.ltb_spec (length (historyStack s)) MAX_HISTORY) as [Hlt|Hge].
  - destruct (Nat.ltb_spec MAX_HISTORY (length (historyStack s) + 1)); [lia|reflexivity].
  - destruct (Nat.ltb_spec MAX_HISTORY (length (historyStack s) + 1)); [|lia].
    destruct (historyStack s) as [|snap h]; [cbn in Hge; unfold MAX_HISTORY in Hge; lia|].
    reflexivity.
Qed.

Lemma Consistent_saveToHistory (s : State) :
  Consistent s -> Consistent (saveToHistory s).
Proof.
  intros [Hb Hs Ho Hv].
  constructor.
  - rewrite saveToHistory_history, length_app. cbn [length].
    destruct (Nat.ltb_spec (length (historyStack s)) MAX_HISTORY);
      [|rewrite length_drop]; unfold MAX_HISTORY in *; lia.
  - rewrite saveToHistory_history. apply Forall_app. split.
    + destruct (length (historyStack s) <? MAX_HISTORY)%nat;
        [exact Hs | apply Forall_drop; exact Hs].
    + constructor; [reflexivity | constructor].
  - exact Ho.
  - exact Hv.
Qed.

Lemma Consistent_undo (s s' : State) :
  Consistent s -> final_state (undo s) = Some s' -> Consistent s'.
Proof.
  intros [Hb Hs Ho Hv]. unfold undo.
  destruct (pop (historyStack s)) as [[snap h]|] eqn:Hpop.
  - apply pop_Some in Hpop.
    rewrite Hpop in Hb, Hs. rewrite length_app in Hb. cbn in Hb.
    apply Forall_app in Hs as [Hh Hsnap]. apply Forall_inv in Hsnap.
    cbn beta in Hsnap.
    cbn [positions with_historyStack restPositions with_positions].
    rewrite (typed_set_same_length (positions s) snap) by congruence.
    assert (Hbase : Consistent (with_positions snap (with_historyStack h s))).
    { constructor; cbn.
      - lia.
      - rewrite Hsnap. exact Hh.
      - rewrite Hsnap. exact Ho.
      - rewrite Hsnap. exact Hv. }
    destruct (restPositions s) as [rest|] eqn:Hrest.
    + destruct (typed_set rest snap) as [e|rest'] eqn:Hset; cbn.
      * intros [= <-]. exact Hbase.
      * intros [= <-]. apply typed_set_length in Hset.
        destruct Hbase as [Hb' Hs' Ho' Hv'].
        constructor; cbn in *; try assumption.
        intros vel Hvel. destruct (Hv' vel Hvel) as (Hj & Hlv & rest0 & Hr0 & Hl0).
        split; [exact Hj|]. split; [exact Hlv|].
        exists rest'. split; [reflexivity|]. rewrite Hrest in Hr0. congruence.
    + cbn. intros [= <-]. exact Hbase.
  - cbn. intros [= <-]. constructor; assumption.
Qed.

Lemma Consistent_resetShape (s s' : State) :
  Consistent s -> final_state (resetShape s) = Some s' -> Consistent s'.
Proof.
  intros [Hb Hs (orig & Ho & Hol) Hv]. unfold resetShape. rewrite Ho.
  rewrite (typed_set_same_length (positions s) orig) by congruence.
  cbn [restPositions with_historyStack with_positions velocities with_restPositions].
  assert (Hbase : Consistent (with_historyStack [] (with_positions orig s))).
  { constructor; cbn.
    - lia.
    - constructor.
    - exists orig. auto.
    - rewrite Hol. exact Hv. }
  destruct (restPositions s) as [rest|] eqn:Hrest.
  - destruct (typed_set rest orig) as [e|rest'] eqn:Hset; cbn.
    + intros [= <-]. exact Hbase.
    + apply typed_set_length in Hset.
      destruct (velocities s) as [vel|] eqn:Hvel; cbn; intros [= <-].
      * destruct (Hv vel eq_refl) as (Hj & Hlv & rest0 & Hr0 & Hl0).
        constructor; cbn.
        -- lia.
        -- constructor.
        -- exists orig. auto.
        -- intros vel' [= <-]. rewrite length_fill0.
           split; [exact Hj|]. split; [congruence|].
           exists rest'. split; [reflexivity|]. congruence.
      * constructor; cbn.
        -- lia.
        -- constructor.
        -- exists orig. auto.
        -- rewrite Hvel. discriminate.
  - cbn. intros [= <-]. exact Hbase.
Qed.

Lemma Consistent_initJellyPhysics (s : State) :
  isJelly (currentMaterial s) = true ->
  (length (historyStack s) <= MAX_HISTORY)%nat ->
  Forall (fun snap => length snap = length (positions s)) (historyStack s) ->
  (exists orig, originalPositions s = Some orig /\ length orig = length (positions s)) ->
  Consistent (initJellyPhysics s).
Proof.
  intros Hj Hb Hs Ho. constructor; cbn; try assumption.
  intros vel [= <-]. unfold zeros. rewrite length_replicate.
  split; [exact Hj|]. split; [reflexivity|].
  exists (positions s). auto.
Qed.

Lemma Consistent_changeMaterial (newMaterial : Material) (s : State) :
  Consistent s -> Consistent (changeMaterial newMaterial s).
Proof.
  intros Hc. unfold changeMaterial.
  destruct (Material_eqb newMaterial (currentMaterial s)); [exact Hc|].
  destruct Hc as [Hb Hs Ho Hv].
  cbn [currentMaterial with_currentMaterial].
  destruct (isJelly newMaterial) eqn:Hj.
  - apply Consistent_initJellyPhysics; cbn; assumption.
  - constructor; cbn; try assumption. discriminate.
Qed.

Lemma Consistent_updateJellyPhysics (delta : R) (s s' : State) :
  Consistent s ->
  final_state (updateJellyPhysics delta s) = Some s' -> Consistent s'.
Proof.
  intros Hc.
  destruct (isJelly (currentMaterial s)) eqn:Hj;
    [|unfold updateJellyPhysics; rewrite Hj; cbn; intros [= <-]; exact Hc].
  destruct (velocities s) as [vel|] eqn:Hvel;
    [|unfold updateJellyPhysics; rewrite Hj, Hvel; cbn; intros [= <-]; exact Hc].
  destruct Hc as [Hb Hs Ho Hv].
  destruct (Hv vel Hvel) as (_ & Hlv & rest & Hrest & Hlr).
  destruct (updateJellyPhysics_parallel delta s vel rest Hj Hvel Hrest Hlv Hlr)
    as (pos' & vel' & Hrun & Hlp & Hlv' & _).
  rewrite Hrun. cbn. intros [= <-].
  constructor; cbn.
  - exact Hb.
  - rewrite Hlp. exact Hs.
  - rewrite Hlp. exact Ho.
  - intros vel0 [= <-]. rewrite Hlp.
    split; [exact Hj|]. split; [congruence|]. exists rest. auto.
Qed.

Section EngineProperties.

Variable createGeometry : Shape -> list Vec3.

Lemma Consistent_initialState : Consistent (initialState createGeometry).
Proof.
  constructor; cbn.
  - unfold MAX_HISTORY. lia.
  - constructor.
  - eexists. split; reflexivity.
  - discriminate.
Qed.

Lemma Consistent_changeShape (newShape : Shape) (s : State) :
  Consistent s -> Consistent (changeShape createGeometry newShape s).
Proof.
  intros Hc. unfold changeShape.
  destruct (Shape_eqb newShape (currentShape s)); [exact Hc|].
  cbn [currentMaterial].
  destruct (isJelly (currentMaterial s)) eqn:Hj.
  - apply Consistent_initJellyPhysics; cbn.
    + exact Hj.
    + unfold MAX_HISTORY. lia.
    + constructor.
    + eexists. split; reflexivity.
  - destruct Hc as [Hb Hs Ho Hv]. constructor; cbn.
    + unfold MAX_HISTORY. lia.
    + constructor.
    + eexists. split; reflexivity.
    + intros vel Hvel. destruct (Hv vel Hvel) as (Hj' & _). congruence.
Qed.

Lemma Consistent_run_op (op : Op) (s s' : State) :
  Consistent s ->
  final_state (run_op createGeometry op s) = Some s' -> Consistent s'.
Proof.
  intros Hc. destruct op; cbn [run_op].
  - cbn. intros [= <-]. now apply Consistent_sculpt.
  - cbn. intros [= <-]. now apply Consistent_saveToHistory.
  - intros Hrun. apply (Consistent_undo s s' Hc).
    destruct (undo s); exact Hrun.
  - now apply Consistent_resetShape.
  - cbn. intros [= <-]. now apply Consistent_changeShape.
  - cbn. intros [= <-]. now apply Consistent_changeMaterial.
  - now apply Consistent_updateJellyPhysics.
  - cbn. intros [= <-]. destruct Hc. constructor; assumption.
  - cbn. intros [= <-]. destruct Hc. constructor; assumption.
Qed.

(** Every reachable state is consistent. *)
Lemma reachable_consistent (s : State) :
  Reachable createGeometry s -> Consistent s.
Proof.
  induction 1 as [|s op s' _ IH Hrun].
  - apply Consistent_initialState.
  - exact (Consistent_run_op op s s' IH Hrun).
Qed.

(** No request made in a reachable state stores a NaN: the model covers every
    run of the engine. *)
Lemma reachable_representable (s : State) (op : Op) :
  Reachable createGeometry s -> run_op createGeometry op s <> NotANumber.
Proof.
  intros Hr. pose proof (reachable_consistent s Hr) as Hc.
  destruct op; cbn [run_op]; try discriminate.
  - unfold undo. destruct (pop (historyStack s)) as [[snap h]|]; [|discriminate].
    destruct (typed_set _ snap); [discriminate|].
    destruct (restPositions _); [|discriminate].
    destruct (typed_set _ snap); discriminate.
  - unfold resetShape. destruct (originalPositions s); [|discriminate].
    destruct (typed_set _ _); [discriminate|].
    destruct (restPositions _); [|discriminate].
    destruct (typed_set _ _); [discriminate|].
    destruct (velocities _); discriminate.
  - destruct (isJelly (currentMaterial s)) eqn:Hj;
      [|unfold updateJellyPhysics; rewrite Hj; discriminate].
    destruct (velocities s) as [vel|] eqn:Hvel;
      [|unfold updateJellyPhysics; rewrite Hj, Hvel; discriminate].
    destruct (cons_velocities s Hc vel Hvel) as (_ & Hlv & rest & Hrest & Hlr).
    destruct (updateJellyPhysics_parallel delta s vel rest Hj Hvel Hrest Hlv Hlr)
      as (pos' & vel' & Hrun & _).
    rewrite Hrun. discriminate.
Qed.

End EngineProperties.

Lemma run_ops_reachable (createGeometry : Shape -> list Vec3) (ops : list Op)
    (s s' : State) :
  Reachable createGeometry s ->
  run_ops createGeometry ops s = Some s' ->
  Reachable createGeometry s'.
Proof.
  revert s. induction ops as [|op ops IH]; intros s Hr; cbn [run_ops].
  - intros [= <-]. exact Hr.
  - destruct (final_state (run_op createGeometry op s)) as [s1|] eqn:Hrun;
      [|discriminate].
    apply IH. exact (reach_step createGeometry s op s1 Hr Hrun).
Qed.

(** ** The claims on the elastic simulator and the history *)



Lemma undo_on_empty_history (s : State) :
  historyStack s = [] -> undo s = Returns false s.
Proof. intros Hh. unfold undo. rewrite Hh. reflexivity. Qed.

(** [undo] never writes the velocity buffer, whatever its outcome. *)
Lemma undo_velocities_frame (s s' : State) :
  final_state (undo s) = Some s' -> velocities s' = velocities s.
Proof.
  unfold undo.
  destruct (pop (historyStack s)) as [[snap h]|]; [|cbn; now intros [= <-]].
  destruct (typed_set _ snap); [cbn; now intros [= <-]|].
  cbn [restPositions with_positions with_historyStack].
  destruct (restPositions s); [|cbn; now intros [= <-]].
  destruct (typed_set _ snap); cbn; now intros [= <-].
Qed.

(** What [undo] does in a consistent state whose rest positions, if any, have
    the size of the live buffer. *)
Lemma undo_restores (s : State) (h : list (list Vec3)) (snap : list Vec3) :
  Consistent s ->
  historyStack s = h ++ [snap] ->
  (forall rest, restPositions s = Some rest -> length rest = length (positions s)) ->
  undo s =
    Returns true
      (mkState (config s) (currentMaterial s) (currentShape s) snap
         (originalPositions s) (velocities s)
         (match restPositions s with Some _ => Some snap | None => None end)
         h (isSculpting s)).
Proof.
  intros Hc Hh Hrest.
  pose proof (cons_history_sizes s Hc) as Hs. rewrite Hh in Hs.
  apply Forall_app in Hs as [_ Hsnap]. apply Forall_inv in Hsnap. cbn beta in Hsnap.
  unfold undo. rewrite Hh, pop_snoc.
  cbn [positions with_historyStack restPositions with_positions].
  rewrite (typed_set_same_length (positions s) snap) by congruence.
  destruct (restPositions s) as [rest|] eqn:Hr.
  - rewrite (typed_set_same_length rest snap)
      by (rewrite (Hrest rest eq_refl); congruence).
    reflexivity.
  - unfold with_positions, with_historyStack. cbn. rewrite Hr. reflexivity.
Qed.



(** ** Rest positions that outlive the elastic material *)

(** After jelly then clay were selected the velocity buffer is gone and the
    rest positions are still there. *)
Lemma jellyThenClay_state (createGeometry : Shape -> list Vec3) :
  run_ops createGeometry jellyThenClay (initialState createGeometry) =
  Some (mkState (mkConfig 0.05 0.5) Clay Cylinder (createGeometry Cylinder)
          (Some (createGeometry Cylinder)) None
          (Some (createGeometry Cylinder)) [] false).
Proof. reflexivity. Qed.

(** C7. Selecting jelly and then clay, from the initial state, leaves the
    rest-position buffer in place although the material is no longer elastic;
    a change of shape made then rebuilds the vertex buffer and keeps the rest
    positions of the previous shape, whatever the size of the new buffer. *)
Theorem rest_positions_left_behind (createGeometry : Shape -> list Vec3) :
  exists s,
    run_ops createGeometry jellyThenClay (initialState createGeometry) = Some s /\
    Reachable createGeometry s /\
    Reachable createGeometry (changeShape createGeometry Cube s) /\
    isJelly (currentMaterial s) = false /\
    velocities s = None /\
    restPositions s = Some (createGeometry Cylinder) /\
    positions (changeShape createGeometry Cube s) = createGeometry Cube /\
    velocities (changeShape createGeometry Cube s) = None /\
    restPositions (changeShape createGeometry Cube s) =
      Some (createGeometry Cylinder).
Proof.
  eexists. split; [apply jellyThenClay_state|].
  split; [|split].
  - apply (run_ops_reachable createGeometry jellyThenClay
             (initialState createGeometry));
      [apply reach_init | apply jellyThenClay_state].
  - apply (run_ops_reachable createGeometry
             (jellyThenClay ++ [OpChangeShape Cube])
             (initialState createGeometry));
      [apply reach_init | reflexivity].
  - repeat split.
Qed.

(** Once the shape changes to one of another size, the rest positions left
    behind no longer match the vertex buffer, in a reachable state. *)
Lemma stale_rest_wrong_size (createGeometry : Shape -> list Vec3) :
  length (createGeometry Cylinder) <> length (createGeometry Cube) ->
  exists s rest,
    Reachable createGeometry s /\
    restPositions s = Some rest /\
    length rest <> length (positions s).
Proof.
  intros Hsizes.
  eexists. exists (createGeometry Cylinder). split; [|split].
  - apply (run_ops_reachable createGeometry
             (jellyThenClay ++ [OpChangeShape Cube])
             (initialState createGeometry));
      [apply reach_init | reflexivity].
  - reflexivity.
  - exact Hsizes.
Qed.

(** C6. Selecting jelly and then clay, from the initial state, leads to a
    state in which [resetShape] raises a [TypeError]: it finds rest positions,
    and calls [fill] on the velocity buffer, which is [null]. *)
Theorem resetShape_after_jelly_throws (createGeometry : Shape -> list Vec3) :
  exists s s',
    run_ops createGeometry jellyThenClay (initialState createGeometry) = Some s /\
    Reachable createGeometry s /\
    resetShape s = Throws TypeError s'.
Proof.
  eexists. eexists. split; [apply jellyThenClay_state|]. split.
  - apply (run_ops_reachable createGeometry jellyThenClay
             (initialState createGeometry));
      [apply reach_init | apply jellyThenClay_state].
  - unfold resetShape.
    cbn [originalPositions positions restPositions with_historyStack
         with_positions velocities with_restPositions].
    rewrite !typed_set_same_length by reflexivity.
    reflexivity.
Qed.

(** C5. With a cube of more vertices than the cylinder: jelly then clay are
    selected, the cube is selected, a gesture sculpts and ends with its
    snapshot; [undo] then raises a [RangeError], since the rest positions
    left behind are shorter than the snapshot it writes into them. *)
Theorem undo_with_stale_rest_throws (createGeometry : Shape -> list Vec3)
    (target : Vec3) :
  (length (createGeometry Cylinder) < length (createGeometry Cube))%nat ->
  exists s s',
    run_ops createGeometry
      (jellyThenClay ++ [OpChangeShape Cube; OpSculpt target; OpSaveToHistory])
      (initialState createGeometry) = Some s /\
    length (historyStack s) = 1%nat /\
    undo s = Throws RangeError s'.
Proof.
  intros Hsizes.
  set (s2 := mkState (mkConfig 0.05 0.5) Clay Cube (createGeometry Cube)
               (Some (createGeometry Cube)) None
               (Some (createGeometry Cylinder)) [] false).
  exists (saveToHistory (sculpt target s2)).
  destruct (sculpt_frame target s2) as (_ & _ & _ & _ & Hh & Hlen & Hr & _).
  destruct (restPositions (sculpt target s2)) as [rest|] eqn:Hrest;
    [|contradiction].
  change (historyStack s2) with (@nil (list Vec3)) in Hh.
  change (positions s2) with (createGeometry Cube) in Hlen.
  change (restPositions s2) with (Some (createGeometry Cylinder)) in Hr.
  cbn [same_size] in Hr.
  eexists. split; [reflexivity|]. split.
  - unfold saveToHistory. cbn [historyStack with_historyStack]. rewrite Hh. reflexivity.
  - unfold undo, saveToHistory. cbn [historyStack with_historyStack].
    rewrite Hh. cbn [app length Nat.ltb Nat.leb MAX_HISTORY].
    change (pop [positions (sculpt target s2)])
      with (Some (positions (sculpt target s2), @nil (list Vec3))).
    cbn [positions with_historyStack restPositions with_positions].
    rewrite typed_set_same_length by reflexivity.
    rewrite Hrest, typed_set_too_long by lia.
    reflexivity.
Qed.

(** ** The statements on sample inputs *)

(** The scenario of the specification: a vertex at radius 1.5 and height 0,
    a target at x = 3, strength 0.05; one call moves the radius by
    (3 - 1.5) * 0.05 and leaves the vertex at height 1 alone. *)
Example sculpt_sample_first_vertex :
  positions (sculpt sampleTarget sampleState) !! 0%nat = Some (mkVec3 1.575 0 0).
Proof.
  rewrite sculpt_lookup. cbn. f_equal.
  unfold spec_sculptVertex, sampleVertex, sampleTarget. cbn [vx vy vz].
  rewrite Rminus_diag, Rabs_R0.
  destruct (Rge_dec 0 0.5) as [Hge|_]; [lra|].
  assert (Hangle : atan2 0 1.5 = 0).
  { unfold atan2. destruct (Rlt_dec 0 1.5); [|lra].
    replace (0 / 1.5) with 0 by lra. apply atan_0. }
  assert (Hradius : sqrt (1.5 ^ 2 + 0 ^ 2) = 1.5).
  { replace (1.5 ^ 2 + 0 ^ 2) with (1.5 * 1.5) by lra. apply sqrt_square. lra. }
  assert (Hfalloff : exp (- 0 ^ 2 / 0.1) = 1).
  { replace (- 0 ^ 2 / 0.1) with 0 by lra. apply exp_0. }
  assert (Htarget : clamp (Rabs 3) 0.2 3.5 = 3).
  { rewrite Rabs_right by lra. unfold clamp.
    destruct (Rlt_dec 3 0.2); [lra|]. destruct (Rlt_dec 3.5 3); [lra|reflexivity]. }
  rewrite Hangle, Hradius, Hfalloff, Htarget, cos_0, sin_0.
  f_equal; lra.
Qed.

Example sculpt_sample_second_vertex :
  positions (sculpt sampleTarget sampleState) !! 1%nat = Some (mkVec3 0 1 1.5).
Proof.
  rewrite sculpt_lookup. cbn. f_equal.
  apply spec_sculptVertex_outside. cbn [vy sampleTarget].
  rewrite Rminus_0_r, Rabs_R1. lra.
Qed.

(** [set] with a short source overwrites a prefix; with a long one it raises. *)
Example typed_set_prefix (a b c w : Vec3) :
  typed_set [a; b; c] [w] = inr [w; b; c].
Proof. reflexivity. Qed.

Example typed_set_overflow (a w1 w2 : Vec3) :
  typed_set [a] [w1; w2] = inl RangeError.
Proof. reflexivity. Qed.

(** A twenty-first snapshot evicts the first of twenty. *)
Example saveToHistory_evicts (live oldest : list Vec3) (kept : list (list Vec3)) :
  length kept = 19%nat ->
  historyStack
    (saveToHistory
       (mkState (mkConfig 0.05 0.5) Clay Cylinder live (Some live) None None
          (oldest :: kept) false)) = kept ++ [live].
Proof.
  intros Hlen. rewrite saveToHistory_history. cbn [historyStack positions length].
  rewrite Hlen. reflexivity.
Qed.


(** One call on the sample cylinder: the vertex at height 1 is outside the
    cutoff of 0.5 around the target. *)
Lemma sculpt_vertex_update_witness :
  positions sampleState !! 1%nat = Some (mkVec3 0 1 1.5) /\
  Rabs (vy (mkVec3 0 1 1.5) - vy sampleTarget) >= sculptRadius (config sampleState) /\
  positions (sculpt sampleTarget sampleState) !! 1%nat = Some (mkVec3 0 1 1.5).
Proof.
  assert (H1 : positions sampleState !! 1%nat = Some (mkVec3 0 1 1.5))
    by reflexivity.
  assert (H2 : Rabs (vy (mkVec3 0 1 1.5) - vy sampleTarget)
               >= sculptRadius (config sampleState)).
  { cbn. rewrite Rminus_0_r, Rabs_R1. lra. }
  exact (conj H1 (conj H2
           (proj1 (proj2 (sculpt_vertex_update sampleTarget sampleState))
              1%nat (mkVec3 0 1 1.5) H1 H2))).
Defined.

(** The angle of the first vertex of the sample cylinder under one call. *)
Lemma sculpt_preserves_angle_witness :
  0 < sculptStrength (config sampleState) <= 1 /\
  positions sampleState !! 0%nat = Some sampleVertex /\
  positions (sculpt sampleTarget sampleState) !! 0%nat =
    Some (spec_sculptVertex 0.05 0.5 sampleTarget sampleVertex) /\
  angleOf (spec_sculptVertex 0.05 0.5 sampleTarget sampleVertex) =
    angleOf sampleVertex /\
  vy (spec_sculptVertex 0.05 0.5 sampleTarget sampleVertex) = vy sampleVertex.
Proof.
  assert (H1 : 0 < sculptStrength (config sampleState) <= 1) by (cbn; lra).
  assert (H2 : positions sampleState !! 0%nat = Some sampleVertex) by reflexivity.
  assert (H3 : positions (sculpt sampleTarget sampleState) !! 0%nat =
               Some (spec_sculptVertex 0.05 0.5 sampleTarget sampleVertex))
    by (rewrite sculpt_lookup; reflexivity).
  exact (conj H1 (conj H2 (conj H3
           (sculpt_preserves_angle sampleTarget sampleState 0 sampleVertex
              (spec_sculptVertex 0.05 0.5 sampleTarget sampleVertex) H1 H2 H3)))).
Defined.

(** Three calls at the sample target, on the first vertex: the distance
    to the target radius is the initial one times [(1 - k)^3]. *)
Lemma sculpt_radius_monotone_witness :
  0.01 <= sculptStrength (config sampleState) <= 0.5 /\
  positions sampleState !! 0%nat = Some sampleVertex /\
  Rabs (vy sampleVertex - vy sampleTarget) < sculptRadius (config sampleState) /\
  exists a,
    positions (sculptN 3 sampleTarget sampleState) !! 0%nat = Some a /\
    clamp (Rabs (vx sampleTarget)) 0.2 3.5 - radiusOf a =
      (clamp (Rabs (vx sampleTarget)) 0.2 3.5 - radiusOf sampleVertex) *
      (1 - exp (- Rabs (vy sampleVertex - vy sampleTarget) ^ 2 / 0.1) *
           sculptStrength (config sampleState)) ^ 3.
Proof.
  assert (H1 : 0.01 <= sculptStrength (config sampleState) <= 0.5) by (cbn; lra).
  assert (H2 : positions sampleState !! 0%nat = Some sampleVertex) by reflexivity.
  assert (H3 : Rabs (vy sampleVertex - vy sampleTarget)
               < sculptRadius (config sampleState)).
  { cbn. rewrite Rminus_diag, Rabs_R0. lra. }
  exact (conj H1 (conj H2 (conj H3
           (proj1 (proj2 (proj2 (sculpt_radius_monotone sampleTarget sampleState 0
                                   sampleVertex H1 H2 H3))) 3%nat)))).
Defined.





(** The sample cube has three vertices and the sample cylinder two. *)
Lemma undo_with_stale_rest_throws_witness :
  (length (sampleGeometry Cylinder) < length (sampleGeometry Cube))%nat /\
  exists s s',
    run_ops sampleGeometry
      (jellyThenClay ++ [OpChangeShape Cube; OpSculpt sampleTarget; OpSaveToHistory])
      (initialState sampleGeometry) = Some s /\
    length (historyStack s) = 1%nat /\
    undo s = Throws RangeError s'.
Proof.
  assert (H1 : (length (sampleGeometry Cylinder) < length (sampleGeometry Cube))%nat)
    by (cbn; lia).
  exact (conj H1 (undo_with_stale_rest_throws sampleGeometry sampleTarget H1)).
Defined.

(** * Further properties of the engine *)

(** ** The first version of [sculpt] *)

Lemma first_sculptVertex_lookup (cfg : Config) (target : Vec3) (i j : nat)
    (pos : list Vec3) :
  FirstVersion.sculptVertex cfg (clampTargetRadius (vx target)) (vy target) i pos !! j =
  if decide (i = j)
  then spec_sculptVertex (sculptStrength cfg) (sculptRadius cfg) target <$> pos !! j
  else pos !! j.
Proof.
  unfold FirstVersion.sculptVertex.
  destruct (pos !! i) as [p|] eqn:Hp.
  - assert (Hi : (i < length pos)%nat) by (apply lookup_lt_is_Some; eauto).
    destruct (Rlt_dec (Rabs (vy p - vy target)) (sculptRadius cfg)) as [Hin|Hout].
    + cbv zeta. rewrite list_lookup_insert.
      destruct (decide (i = j)) as [->|Hne].
      * rewrite decide_True by (split; [reflexivity | exact Hi]).
        rewrite Hp. cbn. unfold spec_sculptVertex.
        destruct (Rge_dec (Rabs (vy p - vy target)) (sculptRadius cfg)); [lra|].
        cbn. rewrite clampTargetRadius_spec, !Rmult_1_r. reflexivity.
      * rewrite decide_False by (intros [? _]; contradiction). reflexivity.
    + destruct (decide (i = j)) as [->|Hne]; [|reflexivity].
      rewrite Hp. cbn. now rewrite spec_sculptVertex_outside by lra.
  - destruct (decide (i = j)) as [->|Hne]; [|reflexivity].
    rewrite Hp. reflexivity.
Qed.

Lemma first_sculptLoop_lookup (cfg : Config) (target : Vec3) (fuel i j : nat)
    (pos : list Vec3) :
  FirstVersion.sculptLoop fuel i cfg (clampTargetRadius (vx target)) (vy target) pos !! j =
  if decide (i <= j < i + fuel)%nat
  then spec_sculptVertex (sculptStrength cfg) (sculptRadius cfg) target <$> pos !! j
  else pos !! j.
Proof.
  revert i pos. induction fuel as [|fuel IH]; intros i pos; cbn [FirstVersion.sculptLoop].
  - rewrite decide_False by lia. reflexivity.
  - rewrite IH, !first_sculptVertex_lookup.
    destruct (decide (i = j)) as [->|Hne].
    + rewrite decide_False by lia. rewrite decide_True by lia. reflexivity.
    + destruct (decide (S i <= j < S i + fuel)%nat).
      * rewrite decide_True by lia. reflexivity.
      * rewrite decide_False by lia. reflexivity.
Qed.

(** X10. The vertex buffer computed by [sculpt] of the current engine is the
    one computed by the first version of [sculpt], in every state: materials,
    history and elastic buffers did not change how vertices move. *)
Theorem sculpt_agrees_with_first_version (target : Vec3) (s : State) :
  positions (sculpt target s) = FirstVersion.sculpt (config s) target (positions s).
Proof.
  apply list_eq. intros j.
  rewrite sculpt_lookup.
  unfold FirstVersion.sculpt.
  change (Rmax minRadius (Rmin maxRadius (Rabs (vx target))))
    with (clampTargetRadius (vx target)).
  rewrite first_sculptLoop_lookup.
  destruct (decide (0 <= j < 0 + length (positions s))%nat) as [Hin|Hout];
    [reflexivity|].
  rewrite (lookup_ge_None_2 (positions s) j) by lia. reflexivity.
Qed.

(** ** The elastic buffers under [sculpt] *)

Lemma sculptVertex_rest (cfg : Config) (target : Vec3) (i : nat)
    (b : SculptBuffers) (rest : list Vec3) :
  sb_rest b = Some rest ->
  sb_rest (sculptVertex cfg (clampTargetRadius (vx target)) (vy target) i b) =
  Some (match sb_positions b !! i with
        | Some p =>
            alter (spec_sculptRest (sculptStrength cfg) (sculptRadius cfg) target p)
              i rest
        | None => rest
        end).
Proof.
  intros Hrest. unfold sculptVertex.
  destruct (sb_positions b !! i) as [p|]; [|exact Hrest].
  destruct (Rlt_dec (Rabs (vy p - vy target)) (sculptRadius cfg)) as [Hin|Hout].
  - assert (Hext : forall r,
      mkVec3
        (cos (atan2 (vz p) (vx p)) *
         (sqrt (vx p * vx p + vz p * vz p) +
          (clampTargetRadius (vx target) - sqrt (vx p * vx p + vz p * vz p)) *
          exp (- (Rabs (vy p - vy target) * Rabs (vy p - vy target)) / 0.1) *
          sculptStrength cfg))
        (vy r)
        (sin (atan2 (vz p) (vx p)) *
         (sqrt (vx p * vx p + vz p * vz p) +
          (clampTargetRadius (vx target) - sqrt (vx p * vx p + vz p * vz p)) *
          exp (- (Rabs (vy p - vy target) * Rabs (vy p - vy target)) / 0.1) *
          sculptStrength cfg)) =
      spec_sculptRest (sculptStrength cfg) (sculptRadius cfg) target p r).
    { intros r. unfold spec_sculptRest, spec_sculptVertex.
      destruct (Rge_dec (Rabs (vy p - vy target)) (sculptRadius cfg)); [lra|].
      cbn. rewrite clampTargetRadius_spec, !Rmult_1_r. reflexivity. }
    cbv zeta. rewrite Hrest.
    destruct (sb_velocities b); cbn [sb_rest]; f_equal;
      apply list_alter_ext; auto.
  - rewrite Hrest. f_equal. symmetry. apply list_alter_id.
    intros r. unfold spec_sculptRest.
    destruct (Rge_dec (Rabs (vy p - vy target)) (sculptRadius cfg)); [reflexivity|lra].
Qed.

Lemma sculptVertex_velocities (cfg : Config) (target : Vec3) (i : nat)
    (b : SculptBuffers) (rest vel : list Vec3) :
  sb_rest b = Some rest ->
  sb_velocities b = Some vel ->
  sb_velocities (sculptVertex cfg (clampTargetRadius (vx target)) (vy target) i b) =
  Some (match sb_positions b !! i with
        | Some p => alter (spec_sculptVelocity (sculptRadius cfg) target p) i vel
        | None => vel
        end).
Proof.
  intros Hrest Hvel. unfold sculptVertex.
  destruct (sb_positions b !! i) as [p|]; [|exact Hvel].
  destruct (Rlt_dec (Rabs (vy p - vy target)) (sculptRadius cfg)) as [Hin|Hout].
  - cbv zeta. rewrite Hrest, Hvel. cbn [sb_velocities]. f_equal.
    apply list_alter_ext; [|reflexivity].
    intros v _. unfold spec_sculptVelocity, radiusOf, angleOf.
    destruct (Rge_dec (Rabs (vy p - vy target)) (sculptRadius cfg)); [lra|].
    cbn. rewrite clampTargetRadius_spec, !Rmult_1_r. reflexivity.
  - rewrite Hvel. f_equal. symmetry. apply list_alter_id.
    intros v. unfold spec_sculptVelocity.
    destruct (Rge_dec (Rabs (vy p - vy target)) (sculptRadius cfg)); [reflexivity|lra].
Qed.

Lemma sculptLoop_rest (cfg : Config) (target : Vec3) (fuel i : nat)
    (b : SculptBuffers) (rest : list Vec3) :
  sb_rest b = Some rest ->
  exists rest',
    sb_rest (sculptLoop fuel i cfg (clampTargetRadius (vx target)) (vy target) b) =
      Some rest' /\
    forall j,
      rest' !! j =
      if decide (i <= j < i + fuel)%nat
      then match sb_positions b !! j with
           | Some p =>
               spec_sculptRest (sculptStrength cfg) (sculptRadius cfg) target p
                 <$> rest !! j
           | None => rest !! j
           end
      else rest !! j.
Proof.
  revert i b rest. induction fuel as [|fuel IH]; intros i b rest Hrest;
    cbn [sculptLoop].
  - exists rest. split; [exact Hrest|]. intros j.
    rewrite decide_False by lia. reflexivity.
  - destruct (IH (S i) _ _ (sculptVertex_rest cfg target i b rest Hrest))
      as (rest' & Hrun & Hall).
    exists rest'. split; [exact Hrun|]. intros j. rewrite Hall.
    rewrite sculptVertex_lookup.
    destruct (decide (i = j)) as [<-|Hne].
    + rewrite decide_False by lia. rewrite decide_True by lia.
      destruct (sb_positions b !! i); [|reflexivity].
      apply list_lookup_alter_eq.
    + assert (Hsame :
        match sb_positions b !! i with
        | Some p =>
            alter (spec_sculptRest (sculptStrength cfg) (sculptRadius cfg) target p)
              i rest
        | None => rest
        end !! j = rest !! j).
      { destruct (sb_positions b !! i); [|reflexivity].
        now apply list_lookup_alter_ne. }
      rewrite Hsame.
      destruct (decide (S i <= j < S i + fuel)%nat).
      * rewrite decide_True by lia. reflexivity.
      * rewrite decide_False by lia. reflexivity.
Qed.

Lemma sculptVertex_keeps_rest_present (cfg : Config) (tR tY : R) (i : nat)
    (b : SculptBuffers) :
  is_Some (sb_rest b) -> is_Some (sb_rest (sculptVertex cfg tR tY i b)).
Proof.
  intros [rest Hrest]. unfold sculptVertex.
  destruct (sb_positions b !! i); [|eauto].
  destruct Rlt_dec; [|eauto].
  rewrite Hrest. destruct (sb_velocities b); cbn; eauto.
Qed.

Lemma sculptLoop_velocities (cfg : Config) (target : Vec3) (fuel i : nat)
    (b : SculptBuffers) (vel : list Vec3) :
  is_Some (sb_rest b) ->
  sb_velocities b = Some vel ->
  exists vel',
    sb_velocities
      (sculptLoop fuel i cfg (clampTargetRadius (vx target)) (vy target) b) =
      Some vel' /\
    forall j,
      vel' !! j =
      if decide (i <= j < i + fuel)%nat
      then match sb_positions b !! j with
           | Some p => spec_sculptVelocity (sculptRadius cfg) target p <$> vel !! j
           | None => vel !! j
           end
      else vel !! j.
Proof.
  revert i b vel. induction fuel as [|fuel IH]; intros i b vel Hrest Hvel;
    cbn [sculptLoop].
  - exists vel. split; [exact Hvel|]. intros j.
    rewrite decide_False by lia. reflexivity.
  - pose proof Hrest as [rest Hrest'].
    destruct (IH (S i) _ _
                (sculptVertex_keeps_rest_present cfg _ _ i b Hrest)
                (sculptVertex_velocities cfg target i b rest vel Hrest' Hvel))
      as (vel' & Hrun & Hall).
    exists vel'. split; [exact Hrun|]. intros j. rewrite Hall.
    rewrite sculptVertex_lookup.
    destruct (decide (i = j)) as [<-|Hne].
    + rewrite decide_False by lia. rewrite decide_True by lia.
      destruct (sb_positions b !! i); [|reflexivity].
      apply list_lookup_alter_eq.
    + assert (Hsame :
        match sb_positions b !! i with
        | Some p => alter (spec_sculptVelocity (sculptRadius cfg) target p) i vel
        | None => vel
        end !! j = vel !! j).
      { destruct (sb_positions b !! i); [|reflexivity].
        now apply list_lookup_alter_ne. }
      rewrite Hsame.
      destruct (decide (S i <= j < S i + fuel)%nat).
      * rewrite decide_True by lia. reflexivity.
      * rewrite decide_False by lia. reflexivity.
Qed.

(** The rest positions after a [sculpt] call, vertex by vertex. *)
Lemma sculpt_rest_lookup (target : Vec3) (s : State) (rest : list Vec3) :
  restPositions s = Some rest ->
  exists rest',
    restPositions (sculpt target s) = Some rest' /\
    forall j,
      rest' !! j =
      match positions s !! j with
      | Some p =>
          spec_sculptRest (sculptStrength (config s)) (sculptRadius (config s))
            target p <$> rest !! j
      | None => rest !! j
      end.
Proof.
  intros Hrest.
  destruct (sculptLoop_rest (config s) target (length (positions s)) 0
              (mkSculptBuffers (positions s) (restPositions s) (velocities s) false)
              rest Hrest) as (rest' & Hrun & Hall).
  exists rest'. split; [exact Hrun|].
  intros j. rewrite Hall. cbn [sb_positions].
  destruct (decide (0 <= j < 0 + length (positions s))%nat) as [Hin|Hout];
    [reflexivity|].
  rewrite (lookup_ge_None_2 (positions s) j) by lia. reflexivity.
Qed.

Lemma sculpt_velocities_lookup (target : Vec3) (s : State) (rest vel : list Vec3) :
  restPositions s = Some rest ->
  velocities s = Some vel ->
  exists vel',
    velocities (sculpt target s) = Some vel' /\
    forall j,
      vel' !! j =
      match positions s !! j with
      | Some p => spec_sculptVelocity (sculptRadius (config s)) target p <$> vel !! j
      | None => vel !! j
      end.
Proof.
  intros Hrest Hvel.
  destruct (sculptLoop_velocities (config s) target (length (positions s)) 0
              (mkSculptBuffers (positions s) (restPositions s) (velocities s) false)
              vel ltac:(cbn; eauto) Hvel) as (vel' & Hrun & Hall).
  exists vel'. split; [exact Hrun|].
  intros j. rewrite Hall. cbn [sb_positions].
  destruct (decide (0 <= j < 0 + length (positions s))%nat) as [Hin|Hout];
    [reflexivity|].
  rewrite (lookup_ge_None_2 (positions s) j) by lia. reflexivity.
Qed.

(** X5. With both elastic buffers present, a [sculpt] call returns them
    rewritten vertex by vertex: outside the cutoff a rest position and a
    velocity are unchanged; inside, the rest position takes the new [x] and
    [z] of the vertex and keeps its own height, and the velocity receives the
    impulse [(targetRadius - currentRadius) * exp(-dy^2/0.1) * 0.5] along the
    direction [(cos angle, 0, sin angle)] of the vertex, without any clamp. *)
Theorem sculpt_elastic_update (target : Vec3) (s : State) (rest vel : list Vec3) :
  restPositions s = Some rest ->
  velocities s = Some vel ->
  exists rest' vel',
    restPositions (sculpt target s) = Some rest' /\
    velocities (sculpt target s) = Some vel' /\
    length rest' = length rest /\
    length vel' = length vel /\
    forall i p,
      positions s !! i = Some p ->
      rest' !! i =
        spec_sculptRest (sculptStrength (config s)) (sculptRadius (config s))
          target p <$> rest !! i /\
      vel' !! i =
        spec_sculptVelocity (sculptRadius (config s)) target p <$> vel !! i.
Proof.
  intros Hrest Hvel.
  destruct (sculpt_rest_lookup target s rest Hrest) as (rest' & Hr & Hrl).
  destruct (sculpt_velocities_lookup target s rest vel Hrest Hvel)
    as (vel' & Hv & Hvl).
  destruct (sculpt_frame target s) as (_ & _ & _ & _ & _ & _ & Hsr & Hsv).
  rewrite Hr, Hrest in Hsr. rewrite Hv, Hvel in Hsv. cbn in Hsr, Hsv.
  exists rest', vel'. repeat (split; [assumption|]).
  intros i p Hp. rewrite Hrl, Hvl, Hp. split; reflexivity.
Qed.

Lemma spec_sculptRest_self (strength radius : R) (target p : Vec3) :
  spec_sculptRest strength radius target p p =
  spec_sculptVertex strength radius target p.
Proof.
  unfold spec_sculptRest, spec_sculptVertex.
  destruct (Rge_dec (Rabs (vy p - vy target)) radius); reflexivity.
Qed.

(** X6. A [sculpt] call on a mesh that lies on its rest shape leaves it on
    its rest shape: afterwards [restPositions] is again equal to the vertex
    buffer, so the tool itself creates no spring force. *)
Theorem sculpt_keeps_rest_shape (target : Vec3) (s : State) :
  restPositions s = Some (positions s) ->
  restPositions (sculpt target s) = Some (positions (sculpt target s)).
Proof.
  intros Hrest.
  destruct (sculpt_rest_lookup target s (positions s) Hrest) as (rest' & Hr & Hrl).
  rewrite Hr. f_equal. apply list_eq. intros j.
  rewrite Hrl, sculpt_lookup.
  destruct (positions s !! j) as [p|]; [|reflexivity].
  cbn. now rewrite spec_sculptRest_self.
Qed.

(** ** What the operations leave alone *)

Lemma undo_frame (s s' : State) :
  final_state (undo s) = Some s' ->
  config s' = config s /\
  currentMaterial s' = currentMaterial s /\
  currentShape s' = currentShape s /\
  originalPositions s' = originalPositions s /\
  velocities s' = velocities s /\
  isSculpting s' = isSculpting s /\
  (restPositions s = None -> restPositions s' = None).
Proof.
  unfold undo.
  destruct (pop (historyStack s)) as [[snap h]|];
    [|cbn; intros [= <-]; cbn; repeat split; auto].
  destruct (typed_set _ snap); [cbn; intros [= <-]; cbn; repeat split; auto|].
  cbn [restPositions with_positions with_historyStack].
  destruct (restPositions s) as [rest|] eqn:Hr;
    [|cbn; intros [= <-]; cbn; repeat split; auto].
  destruct (typed_set _ snap); cbn; intros [= <-];
    (do 6 (split; [reflexivity|])); discriminate.
Qed.

Lemma resetShape_frame (s s' : State) :
  final_state (resetShape s) = Some s' ->
  config s' = config s /\
  currentMaterial s' = currentMaterial s /\
  currentShape s' = currentShape s /\
  originalPositions s' = originalPositions s /\
  isSculpting s' = isSculpting s /\
  (velocities s' = None <-> velocities s = None) /\
  (restPositions s = None -> restPositions s' = None).
Proof.
  unfold resetShape.
  destruct (originalPositions s) as [orig|] eqn:Ho;
    [|cbn; intros [= <-]; intuition congruence].
  destruct (typed_set _ orig); [cbn; intros [= <-]; intuition congruence|].
  cbn [restPositions with_positions with_historyStack velocities with_restPositions].
  destruct (restPositions s) as [rest|] eqn:Hr;
    [|cbn; intros [= <-]; cbn; intuition congruence].
  destruct (typed_set _ orig); [cbn; intros [= <-]; cbn; intuition congruence|].
  destruct (velocities s) as [vel|] eqn:Hv; cbn; intros [= <-]; cbn;
    intuition congruence.
Qed.

Lemma updateJellyPhysics_frame (delta : R) (s s' : State) :
  final_state (updateJellyPhysics delta s) = Some s' ->
  config s' = config s /\
  currentMaterial s' = currentMaterial s /\
  currentShape s' = currentShape s /\
  originalPositions s' = originalPositions s /\
  restPositions s' = restPositions s /\
  historyStack s' = historyStack s /\
  isSculpting s' = isSculpting s /\
  (velocities s' = None <-> velocities s = None).
Proof.
  unfold updateJellyPhysics.
  destruct (negb (isJelly (currentMaterial s)));
    [cbn; intros [= <-]; intuition congruence|].
  destruct (velocities s) as [vel|] eqn:Hv;
    [|cbn; intros [= <-]; intuition congruence].
  destruct (restPositions s) as [rest|] eqn:Hr.
  - destruct (jellyLoop _ _ _ _ _ _) as [[pos' vel']|]; [|discriminate].
    cbn. intros [= <-]. cbn. intuition congruence.
  - destruct (positions s); cbn; intros [= <-]; intuition congruence.
Qed.

Lemma Material_eqb_eq (a b : Material) : Material_eqb a b = true <-> a = b.
Proof. destruct a, b; cbn; split; congruence. Qed.

Lemma Shape_eqb_eq (a b : Shape) : Shape_eqb a b = true <-> a = b.
Proof. destruct a, b; cbn; split; congruence. Qed.



(** ** Reset, and the elastic state at rest *)



Lemma resetShape_elastic (s : State) (vel : list Vec3) :
  Consistent s ->
  velocities s = Some vel ->
  exists orig,
    originalPositions s = Some orig /\
    resetShape s =
      Returns tt
        (mkState (config s) (currentMaterial s) (currentShape s) orig (Some orig)
           (Some (zeros (length orig))) (Some orig) [] (isSculpting s)).
Proof.
  intros Hc Hvel. destruct (cons_original s Hc) as (orig & Ho & Hol).
  destruct (cons_velocities s Hc vel Hvel) as (_ & Hlv & rest & Hrest & Hlr).
  exists orig. split; [exact Ho|].
  unfold resetShape. rewrite Ho.
  rewrite (typed_set_same_length (positions s) orig) by congruence.
  cbn [restPositions with_historyStack with_positions velocities with_restPositions].
  rewrite Hrest, (typed_set_same_length rest orig) by congruence.
  rewrite Hvel, fill0_zeros.
  unfold with_velocities, with_restPositions, with_historyStack, with_positions.
  cbn. rewrite Ho. do 4 f_equal. congruence.
Qed.

Lemma resetShape_without_rest (s : State) :
  Consistent s ->
  restPositions s = None ->
  exists orig,
    originalPositions s = Some orig /\
    resetShape s = Returns tt (with_historyStack [] (with_positions orig s)).
Proof.
  intros Hc Hrest. destruct (cons_original s Hc) as (orig & Ho & Hol).
  exists orig. split; [exact Ho|].
  unfold resetShape. rewrite Ho.
  rewrite (typed_set_same_length (positions s) orig) by congruence.
  cbn [restPositions with_historyStack with_positions]. now rewrite Hrest.
Qed.

Lemma stepN_at_rest (s : State) :
  (forall delta, updateJellyPhysics delta s = Returns tt s) ->
  forall deltas, stepN deltas s = Returns tt s.
Proof.
  intros Hstep deltas. induction deltas as [|d deltas IH]; cbn [stepN];
    [reflexivity|].
  now rewrite Hstep.
Qed.

Lemma initJellyPhysics_at_rest (s : State) (deltas : list R) :
  isJelly (currentMaterial s) = true ->
  stepN deltas (initJellyPhysics s) = Returns tt (initJellyPhysics s).
Proof.
  intros Hj. apply stepN_at_rest. intros delta.
  apply (updateJellyPhysics_at_rest delta (initJellyPhysics s)
           (zeros (length (positions s))) (positions s)); try reflexivity.
  exact Hj.
Qed.



(** X9. Every entry into the elastic mode starts at rest: after jelly is
    selected, and after a new shape is built while jelly is selected, the
    rest positions are the vertex buffer and the velocities are zero, so any
    number of steps of the elastic simulator leaves the state unchanged. *)
Theorem entering_jelly_starts_at_rest (createGeometry : Shape -> list Vec3)
    (s : State) (deltas : list R) :
  (isJelly (currentMaterial s) = false ->
   restPositions (changeMaterial Jelly s) = Some (positions s) /\
   stepN deltas (changeMaterial Jelly s) = Returns tt (changeMaterial Jelly s)) /\
  (forall newShape,
     isJelly (currentMaterial s) = true ->
     newShape <> currentShape s ->
     restPositions (changeShape createGeometry newShape s) =
       Some (createGeometry newShape) /\
     stepN deltas (changeShape createGeometry newShape s) =
       Returns tt (changeShape createGeometry newShape s)).
Proof.
  split.
  - intros Hj. unfold changeMaterial.
    assert (Hne : Material_eqb Jelly (currentMaterial s) = false)
      by (destruct (currentMaterial s); cbn in *; congruence).
    rewrite Hne. cbn [currentMaterial with_currentMaterial isJelly].
    split; [reflexivity|].
    now apply initJellyPhysics_at_rest.
  - intros newShape Hj Hne. unfold changeShape.
    assert (Hneb : Shape_eqb newShape (currentShape s) = false).
    { destruct (Shape_eqb newShape (currentShape s)) eqn:E; [|reflexivity].
      apply Shape_eqb_eq in E. contradiction. }
    rewrite Hneb. cbn [currentMaterial]. rewrite Hj.
    split; [reflexivity|].
    now apply initJellyPhysics_at_rest.
Qed.

(** ** Bounds of the elastic step *)




(** ** Snapshots and undo together *)

Lemma restInSync_sizes (s : State) (rest : list Vec3) :
  Consistent s -> restInSync s -> restPositions s = Some rest ->
  length rest = length (positions s).
Proof.
  intros Hc [Hnone | Hvel] Hrest; [congruence|].
  destruct (velocities s) as [vel|] eqn:Ev; [|contradiction].
  destruct (cons_velocities s Hc vel Ev) as (_ & _ & rest0 & Hr0 & Hl0).
  congruence.
Qed.


(** ** When operations return *)

Lemma run_op_returns (createGeometry : Shape -> list Vec3) (s : State) (op : Op) :
  Reachable createGeometry s ->
  restInSync s ->
  exists s', run_op createGeometry op s = Returns tt s'.
Proof.
  intros Hreach Hsync.
  pose proof (reachable_consistent createGeometry s Hreach) as Hc.
  destruct op; cbn [run_op]; eauto.
  - destruct (pop (historyStack s)) as [[snap h]|] eqn:Hpop.
    + apply pop_Some in Hpop.
      rewrite (undo_restores s h snap Hc Hpop)
        by (intros rest Hrest; now apply restInSync_sizes).
      eauto.
    + apply pop_None in Hpop. rewrite (undo_on_empty_history s Hpop). eauto.
  - destruct (velocities s) as [vel|] eqn:Hvel.
    + destruct (resetShape_elastic s vel Hc Hvel) as (orig & _ & Hrun).
      rewrite Hrun. eauto.
    + destruct Hsync as [Hnone | Hv]; [|contradiction].
      destruct (resetShape_without_rest s Hc Hnone) as (orig & _ & Hrun).
      rewrite Hrun. eauto.
  - destruct (isJelly (currentMaterial s)) eqn:Hj;
      [|unfold updateJellyPhysics; rewrite Hj; cbn; eauto].
    destruct (velocities s) as [vel|] eqn:Hvel;
      [|unfold updateJellyPhysics; rewrite Hj, Hvel; cbn; eauto].
    destruct (cons_velocities s Hc vel Hvel) as (_ & Hlv & rest & Hrest & Hlr).
    destruct (updateJellyPhysics_parallel delta s vel rest Hj Hvel Hrest Hlv Hlr)
      as (pos' & vel' & Hrun & _).
    rewrite Hrun. eauto.
Qed.


Lemma never_jelly_step (createGeometry : Shape -> list Vec3) (s : State) (op : Op) :
  Reachable createGeometry s ->
  restPositions s = None ->
  isJelly (currentMaterial s) = false ->
  op <> OpChangeMaterial Jelly ->
  exists s',
    run_op createGeometry op s = Returns tt s' /\
    Reachable createGeometry s' /\
    restPositions s' = None /\
    isJelly (currentMaterial s') = false.
Proof.
  intros Hreach Hrest Hj Hop.
  destruct (run_op_returns createGeometry s op Hreach (or_introl Hrest))
    as (s' & Hrun).
  assert (Hfinal : final_state (run_op createGeometry op s) = Some s')
    by now rewrite Hrun.
  exists s'. split; [exact Hrun|].
  split; [exact (reach_step createGeometry s op s' Hreach Hfinal)|].
  destruct op; cbn [run_op] in Hfinal.
  - injection Hfinal as <-.
    destruct (sculpt_frame intersectPoint s) as (_ & Hm & _ & _ & _ & _ & Hsr & _).
    rewrite Hrest in Hsr. rewrite Hm.
    destruct (restPositions (sculpt intersectPoint s)); [contradiction | auto].
  - injection Hfinal as <-. auto.
  - assert (Hf : final_state (undo s) = Some s') by (destruct (undo s); exact Hfinal).
    destruct (undo_frame s s' Hf) as (_ & Hm & _ & _ & _ & _ & Hr).
    rewrite Hm. auto.
  - destruct (resetShape_frame s s' Hfinal) as (_ & Hm & _ & _ & _ & _ & Hr).
    rewrite Hm. auto.
  - injection Hfinal as <-. unfold changeShape.
    destruct (Shape_eqb newShape (currentShape s)); [auto|].
    cbn [currentMaterial]. rewrite Hj. cbn. auto.
  - injection Hfinal as <-. unfold changeMaterial.
    destruct (Material_eqb newMaterial (currentMaterial s)); [auto|].
    cbn [currentMaterial with_currentMaterial].
    destruct newMaterial; cbn; auto. contradiction.
  - destruct (updateJellyPhysics_frame delta s s' Hfinal)
      as (_ & Hm & _ & _ & Hr & _).
    rewrite Hm, Hr. auto.
  - injection Hfinal as <-. auto.
  - injection Hfinal as <-. auto.
Qed.

(** X11. As long as the jelly material is never selected, no request ever
    raises: any list of requests without that selection runs to its end from
    the initial state, and no elastic buffer is ever created. *)
Theorem never_jelly_never_raises (createGeometry : Shape -> list Vec3)
    (ops : list Op) :
  Forall (fun op => op <> OpChangeMaterial Jelly) ops ->
  exists s',
    run_ops_returning createGeometry ops (initialState createGeometry) = Some s' /\
    restPositions s' = None /\
    velocities s' = None.
Proof.
  intros Hops.
  assert (Hgen : forall s,
    Reachable createGeometry s ->
    restPositions s = None ->
    isJelly (currentMaterial s) = false ->
    exists s',
      run_ops_returning createGeometry ops s = Some s' /\
      Reachable createGeometry s' /\
      restPositions s' = None /\
      isJelly (currentMaterial s') = false).
  { induction Hops as [|op ops Hop _ IH]; intros s Hreach Hrest Hj.
    - exists s. cbn. auto.
    - destruct (never_jelly_step createGeometry s op Hreach Hrest Hj Hop)
        as (s1 & Hrun & Hreach1 & Hrest1 & Hj1).
      destruct (IH s1 Hreach1 Hrest1 Hj1) as (s' & Hruns & Hfacts).
      exists s'. cbn [run_ops_returning]. rewrite Hrun. auto. }
  destruct (Hgen (initialState createGeometry) (reach_init createGeometry)
              eq_refl eq_refl) as (s' & Hruns & Hreach & Hrest & Hj).
  exists s'. split; [exact Hruns|]. split; [exact Hrest|].
  destruct (velocities s') as [vel|] eqn:Hvel; [|reflexivity].
  destruct (cons_velocities s' (reachable_consistent createGeometry s' Hreach)
              vel Hvel) as (Hj' & _).
  congruence.
Qed.

(** ** Pointer coordinates *)

(** X12. A pointer inside the window is mapped into the square [-1, 1] x
    [-1, 1]: the left and top edges go to [x = -1] and [y = 1], the right and
    bottom edges to [x = 1] and [y = -1], the vertical axis being flipped. *)
Theorem pointerToDevice_range (clientX clientY innerWidth innerHeight : R) :
  0 < innerWidth -> 0 < innerHeight ->
  0 <= clientX <= innerWidth -> 0 <= clientY <= innerHeight ->
  -1 <= fst (pointerToDevice clientX clientY innerWidth innerHeight) <= 1 /\
  -1 <= snd (pointerToDevice clientX clientY innerWidth innerHeight) <= 1 /\
  pointerToDevice 0 0 innerWidth innerHeight = (-1, 1) /\
  pointerToDevice innerWidth innerHeight innerWidth innerHeight = (1, -1).
Proof.
  intros Hw Hh Hx Hy. unfold pointerToDevice. cbn [fst snd].
  assert (Hqx : 0 <= clientX / innerWidth <= 1).
  { pose proof (Rinv_0_lt_compat innerWidth Hw) as Hinv.
    pose proof (Rinv_r innerWidth ltac:(lra)) as Hone.
    unfold Rdiv. nra. }
  assert (Hqy : 0 <= clientY / innerHeight <= 1).
  { pose proof (Rinv_0_lt_compat innerHeight Hh) as Hinv.
    pose proof (Rinv_r innerHeight ltac:(lra)) as Hone.
    unfold Rdiv. nra. }
  split; [lra|]. split; [lra|]. split.
  - f_equal; field; lra.
  - f_equal; field; lra.
Qed.

(** ** Haptic feedback *)

Lemma hapticPulses_first (canVibrate : bool) (calls : list (Z * Z)) (last : Z) :
  match hapticPulses canVibrate calls last with
  | [] => True
  | (t, _) :: _ => (last + HAPTIC_COOLDOWN <= t)%Z
  end.
Proof.
  revert last. induction calls as [|[now duration] calls IH]; intros last; cbn.
  - exact I.
  - unfold triggerHaptic.
    destruct (Z.ltb_spec (now - last) HAPTIC_COOLDOWN) as [Hlt|Hge].
    + apply IH.
    + destruct canVibrate; [lia | apply IH].
Qed.

(** X13. Whatever the times and durations of the calls of [triggerHaptic],
    two consecutive calls of [navigator.vibrate] are at least 50 ms apart,
    the first one at least 50 ms after the initial [lastHapticTime]; each
    pulse has the time and the duration of the call that made it; and a
    browser without [navigator.vibrate] gets no pulse. *)
Theorem haptic_pulses_spaced (canVibrate : bool) (calls : list (Z * Z))
    (lastHapticTime : Z) :
  spaced 50 (hapticPulses canVibrate calls lastHapticTime) /\
  (forall pulse, pulse ∈ hapticPulses canVibrate calls lastHapticTime ->
     pulse ∈ calls /\ (lastHapticTime + 50 <= fst pulse)%Z) /\
  hapticPulses false calls lastHapticTime = [].
Proof.
  split; [|split].
  - revert lastHapticTime.
    induction calls as [|[now duration] calls IH]; intros last; cbn; [exact I|].
    unfold triggerHaptic.
    destruct (Z.ltb_spec (now - last) HAPTIC_COOLDOWN) as [Hlt|Hge]; [apply IH|].
    destruct canVibrate; [|apply IH].
    cbn [spaced].
    pose proof (hapticPulses_first true calls now) as Hfirst.
    pose proof (IH now) as Hrest.
    destruct (hapticPulses true calls now) as [|[t d] more]; [exact I|].
    split; [exact Hfirst | exact Hrest].
  - revert lastHapticTime.
    induction calls as [|[now duration] calls IH]; intros last pulse; cbn.
    + intros Hin. inversion Hin.
    + unfold triggerHaptic.
      destruct (Z.ltb_spec (now - last) HAPTIC_COOLDOWN) as [Hlt|Hge].
      * intros Hin. destruct (IH last pulse Hin) as (Hc & Ht).
        split; [now right | exact Ht].
      * destruct canVibrate.
        -- intros Hin. apply elem_of_cons in Hin as [-> | Hin].
           ++ split; [now left | unfold HAPTIC_COOLDOWN in Hge; cbn; lia].
           ++ destruct (IH now pulse Hin) as (Hc & Ht).
              split; [now right | unfold HAPTIC_COOLDOWN in Hge; lia].
        -- intros Hin. destruct (IH last pulse Hin) as (Hc & Ht).
           split; [now right | exact Ht].
  - revert lastHapticTime.
    induction calls as [|[now duration] calls IH]; intros last; cbn; [reflexivity|].
    unfold triggerHaptic.
    destruct (now - last <? HAPTIC_COOLDOWN)%Z; apply IH.
Qed.

(** ** Gestures and the animation loop *)

Lemma Consistent_with_isSculpting (b : bool) (s : State) :
  Consistent s -> Consistent (with_isSculpting b s).
Proof. intros [Hb Hs Ho Hv]. constructor; assumption. Qed.

(** A frame ends in the state left by the elastic step, or in that state
    sculpted at the hit point, which needs the pointer down, the settings
    menu not in use and a hit inside the band. *)
Lemma animate_final_state (delta : R) (hit : option Vec3) (down gui : bool)
    (s s' : State) :
  final_state (animate delta hit down gui s) = Some s' ->
  exists s1,
    final_state (updateJellyPhysics delta s) = Some s1 /\
    (s' = s1 \/
     exists point,
       hit = Some point /\ down = true /\ gui = false /\
       vy point < clayHeight / 2 + 1 /\ vy point > - clayHeight / 2 - 1 /\
       s' = sculpt point s1).
Proof.
  unfold animate.
  destruct (updateJellyPhysics delta s) as [[] s1|e s1|]; cbn; [| |discriminate].
  - destruct hit as [point|]; [|cbn; intros [= <-]; eauto].
    destruct (Rlt_dec (vy point) (clayHeight / 2 + 1)); [|cbn; intros [= <-]; eauto].
    destruct (Rgt_dec (vy point) (- clayHeight / 2 - 1)); [|cbn; intros [= <-]; eauto].
    destruct down, gui; cbn; intros [= <-]; eauto.
    exists s1. split; [reflexivity|]. right. exists point. auto 10.
  - intros [= <-]. eauto.
Qed.

Lemma Consistent_animate (delta : R) (hit : option Vec3) (down gui : bool)
    (s s' : State) :
  Consistent s ->
  final_state (animate delta hit down gui s) = Some s' -> Consistent s'.
Proof.
  intros Hc Hrun.
  destruct (animate_final_state _ _ _ _ _ _ Hrun) as (s1 & Hstep & Hs').
  pose proof (Consistent_updateJellyPhysics delta s s1 Hc Hstep) as Hc1.
  destruct Hs' as [-> | (point & _ & _ & _ & _ & _ & ->)];
    [exact Hc1 | now apply Consistent_sculpt].
Qed.

Lemma updateJellyPhysics_has_final_state (delta : R) (s : State) :
  Consistent s -> exists s', final_state (updateJellyPhysics delta s) = Some s'.
Proof.
  intros Hc.
  destruct (isJelly (currentMaterial s)) eqn:Hj;
    [|unfold updateJellyPhysics; rewrite Hj; cbn; eauto].
  destruct (velocities s) as [vel|] eqn:Hvel;
    [|unfold updateJellyPhysics; rewrite Hj, Hvel; cbn; eauto].
  destruct (cons_velocities s Hc vel Hvel) as (_ & Hlv & rest & Hrest & Hlr).
  destruct (updateJellyPhysics_parallel delta s vel rest Hj Hvel Hrest Hlv Hlr)
    as (pos' & vel' & Hrun & _).
  rewrite Hrun. cbn. eauto.
Qed.

(** An event that runs the engine leaves the pointer variables alone. *)
Lemma engine_event_Some (a a' : App) (outcome : option State) :
  option_map (fun s => with_engine s a) outcome = Some a' ->
  exists s', outcome = Some s' /\ a' = with_engine s' a.
Proof.
  destruct outcome as [s'|]; cbn; [|discriminate].
  intros [= <-]. exists s'. split; reflexivity.
Qed.

Lemma changeShape_isSculpting (createGeometry : Shape -> list Vec3)
    (newShape : Shape) (s : State) :
  isSculpting (changeShape createGeometry newShape s) = isSculpting s.
Proof.
  unfold changeShape. destruct (Shape_eqb _ _); [reflexivity|].
  cbn [currentMaterial]. destruct (isJelly _); reflexivity.
Qed.

Lemma changeMaterial_isSculpting (newMaterial : Material) (s : State) :
  isSculpting (changeMaterial newMaterial s) = isSculpting s.
Proof.
  unfold changeMaterial. destruct (Material_eqb _ _); [reflexivity|].
  cbn [currentMaterial with_currentMaterial]. destruct (isJelly _); reflexivity.
Qed.

(** [undo] when the most recent snapshot is the vertex buffer itself: the
    snapshot goes, the vertex buffer and the velocities stay, whether the
    write into the rest positions succeeds or raises. *)
Lemma undo_of_fresh_snapshot (s : State) (h : list (list Vec3)) :
  historyStack s = h ++ [positions s] ->
  exists s',
    final_state (undo s) = Some s' /\
    positions s' = positions s /\
    velocities s' = velocities s /\
    historyStack s' = h.
Proof.
  intros Hh. unfold undo. rewrite Hh, pop_snoc.
  cbn [positions with_historyStack restPositions with_positions].
  rewrite typed_set_same_length by reflexivity.
  destruct (restPositions s) as [rest|]; [|cbn; eauto].
  destruct (typed_set rest (positions s)); cbn; eauto.
Qed.

Lemma sculptN_after_sculpt (n : nat) (target : Vec3) (s : State) :
  sculptN n target (sculpt target s) = sculptN (S n) target s.
Proof.
  induction n as [|n IH]; [reflexivity|].
  cbn [sculptN] in IH |- *. now rewrite IH.
Qed.

Section GestureProperties.

Variable createGeometry : Shape -> list Vec3.

Lemma app_consistent (a : App) :
  AppReachable createGeometry a -> Consistent (engine a).
Proof.
  induction 1 as [|a ev a' _ IH Hev].
  - apply Consistent_initialState.
  - destruct ev; cbn [handle] in Hev;
      try (apply engine_event_Some in Hev as (s' & Hrun & ->); cbn [engine with_engine]).
    + injection Hev as <-. exact IH.
    + injection Hev as <-. cbn. apply Consistent_with_isSculpting.
      destruct (_ && _); [now apply Consistent_saveToHistory | exact IH].
    + injection Hev as <-. cbn. now apply Consistent_with_isSculpting.
    + injection Hev as <-. exact IH.
    + exact (Consistent_animate _ _ _ _ _ _ IH Hrun).
    + exact (Consistent_run_op createGeometry _ _ _ IH Hrun).
    + exact (Consistent_run_op createGeometry _ _ _ IH Hrun).
    + exact (Consistent_run_op createGeometry _ _ _ IH Hrun).
    + exact (Consistent_run_op createGeometry _ _ _ IH Hrun).
    + exact (Consistent_run_op createGeometry _ _ _ IH Hrun).
    + exact (Consistent_run_op createGeometry _ _ _ IH Hrun).
Qed.

(** [isSculpting] is raised only while the pointer is down. *)
Lemma app_sculpting_pointer_down (a : App) :
  AppReachable createGeometry a ->
  isSculpting (engine a) = true -> isMouseDown a = true.
Proof.
  induction 1 as [|a ev a' _ IH Hev].
  - discriminate.
  - destruct ev; cbn [handle] in Hev;
      try (apply engine_event_Some in Hev as (s' & Hrun & ->);
           cbn [engine with_engine isMouseDown]).
    + injection Hev as <-. reflexivity.
    + injection Hev as <-. discriminate.
    + injection Hev as <-. discriminate.
    + injection Hev as <-. exact IH.
    + destruct (animate_final_state _ _ _ _ _ _ Hrun) as (s1 & Hstep & Hs').
      destruct (updateJellyPhysics_frame _ _ _ Hstep)
        as (_ & _ & _ & _ & _ & _ & Hflag & _).
      destruct Hs' as [-> | (point & _ & Hdown & _)]; [|intros _; exact Hdown].
      rewrite Hflag. exact IH.
    + cbn [run_op] in Hrun.
      assert (Hf : final_state (undo (engine a)) = Some s')
        by (destruct (undo (engine a)); exact Hrun).
      destruct (undo_frame _ _ Hf) as (_ & _ & _ & _ & _ & Hflag & _).
      rewrite Hflag. exact IH.
    + destruct (resetShape_frame _ _ Hrun) as (_ & _ & _ & _ & Hflag & _).
      rewrite Hflag. exact IH.
    + injection Hrun as <-. rewrite changeShape_isSculpting. exact IH.
    + injection Hrun as <-. rewrite changeMaterial_isSculpting. exact IH.
    + injection Hrun as <-. exact IH.
    + injection Hrun as <-. exact IH.
Qed.

(** Idle frames change neither the history nor the flags of the gesture. *)
Lemma idle_frames_keep_history (frames : list Event) (a : App) :
  Consistent (engine a) ->
  Forall idleFrame frames ->
  exists a',
    handle_all createGeometry frames a = Some a' /\
    Consistent (engine a') /\
    historyStack (engine a') = historyStack (engine a) /\
    isSculpting (engine a') = isSculpting (engine a) /\
    isMouseDown a' = isMouseDown a /\
    sculptStartTime a' = sculptStartTime a.
Proof.
  intros Hc Hidle. revert a Hc.
  induction Hidle as [|ev frames (delta & hit & -> & Hmiss) _ IH]; intros a Hc.
  - exists a. cbn. auto 10.
  - destruct (updateJellyPhysics_has_final_state delta (engine a) Hc)
      as (s1 & Hstep).
    assert (Hrun : final_state
                     (animate delta hit (isMouseDown a) (isInteractingWithGUI a)
                        (engine a)) = Some s1).
    { unfold animate.
      destruct (updateJellyPhysics delta (engine a)) as [[] s2|e s2|];
        cbn in Hstep |- *; [|exact Hstep|discriminate].
      destruct hit as [point|]; [|exact Hstep].
      destruct (Rlt_dec (vy point) (clayHeight / 2 + 1)); [|exact Hstep].
      destruct (Rgt_dec (vy point) (- clayHeight / 2 - 1)); [|exact Hstep].
      exfalso. apply (Hmiss point eq_refl). split; assumption. }
    destruct (updateJellyPhysics_frame _ _ _ Hstep)
      as (_ & _ & _ & _ & _ & Hh & Hflag & _).
    destruct (IH (with_engine s1 a)
                (Consistent_updateJellyPhysics delta _ _ Hc Hstep))
      as (a' & Hall & Hc' & Hh' & Hflag' & Hdown' & Hstart').
    exists a'. cbn [handle_all handle]. rewrite Hrun. cbn [option_map].
    split; [exact Hall|]. split; [exact Hc'|].
    cbn in Hh', Hflag', Hdown', Hstart'.
    repeat split; congruence.
Qed.

(** X14. A press and release of the pointer during which the ray never hits
    the plane inside the band around the clay never pushes a snapshot,
    however long the pointer was held: starting with the pointer up, after
    the press, any number of such frames and the release, the history is what
    it was and the pointer is up. *)
Theorem idle_press_saves_nothing (a : App) (pressed released : Z)
    (frames : list Event) :
  AppReachable createGeometry a ->
  isMouseDown a = false ->
  Forall idleFrame frames ->
  exists a',
    handle_all createGeometry
      (EvPointerDown pressed :: frames ++ [EvPointerUp released]) a = Some a' /\
    historyStack (engine a') = historyStack (engine a) /\
    isMouseDown a' = false /\
    isSculpting (engine a') = false.
Proof.
  intros Hreach Hup Hidle.
  assert (Hflag : isSculpting (engine a) = false).
  { destruct (isSculpting (engine a)) eqn:E; [|reflexivity].
    rewrite (app_sculpting_pointer_down a Hreach E) in Hup. discriminate. }
  cbn [handle_all handle].
  destruct (idle_frames_keep_history frames (onPointerDown pressed a)
              (app_consistent a Hreach) Hidle)
    as (a1 & Hall & _ & Hh & Hflag1 & _ & _).
  cbn in Hh, Hflag1.
  assert (Hsplit : forall evs more b,
    handle_all createGeometry evs b = Some a1 ->
    handle_all createGeometry (evs ++ more) b = handle_all createGeometry more a1).
  { induction evs as [|ev evs IHevs]; intros more b; cbn.
    - now intros [= ->].
    - destruct (handle createGeometry ev b); [apply IHevs | discriminate]. }
  rewrite (Hsplit frames [EvPointerUp released] _ Hall).
  cbn [handle_all handle]. eexists. split; [reflexivity|].
  unfold onPointerUp. rewrite Hflag1, Hflag. cbn. auto.
Qed.

(** X15. The snapshot of a gesture is taken after the gesture: in any state
    of the application, when a release pushes a snapshot (a vertex was touched
    and the press is more than 100 ms old), an undo made right after it,
    whether it returns or raises, leaves the vertex buffer and the velocities
    as they were at the release, and only removes that snapshot from the
    history. *)
Theorem first_undo_after_gesture (a : App) (released : Z) :
  isSculpting (engine a) = true ->
  (100 < released - sculptStartTime a)%Z ->
  exists a',
    handle_all createGeometry [EvPointerUp released; EvUndo] a = Some a' /\
    positions (engine a') = positions (engine a) /\
    velocities (engine a') = velocities (engine a) /\
    historyStack (engine a') =
      (if (length (historyStack (engine a)) <? MAX_HISTORY)%nat
       then historyStack (engine a) else drop 1 (historyStack (engine a))).
Proof.
  intros Hflag Hheld.
  cbn [handle_all handle]. unfold onPointerUp.
  apply Z.ltb_lt in Hheld. rewrite Hflag, Hheld. cbn [andb engine run_op].
  assert (Hh0 :
    historyStack (with_isSculpting false (saveToHistory (engine a))) =
    (if (length (historyStack (engine a)) <? MAX_HISTORY)%nat
     then historyStack (engine a) else drop 1 (historyStack (engine a)))
    ++ [positions (with_isSculpting false (saveToHistory (engine a)))]).
  { change (positions (with_isSculpting false (saveToHistory (engine a))))
      with (positions (engine a)).
    rewrite <- (saveToHistory_history (engine a)). reflexivity. }
  destruct (undo_of_fresh_snapshot _ _ Hh0) as (s' & Hrun & Hpos & Hvel & Hh).
  assert (Hfinal :
    final_state
      match undo (with_isSculpting false (saveToHistory (engine a))) with
      | Returns _ s1 => Returns tt s1
      | Throws e s1 => Throws e s1
      | NotANumber => NotANumber
      end = Some s').
  { destruct (undo (with_isSculpting false (saveToHistory (engine a))));
      exact Hrun. }
  rewrite Hfinal. cbn [option_map]. eexists. split; [reflexivity|].
  cbn [engine with_engine]. cbn in Hpos, Hvel. auto.
Qed.

(** X17. While the pointer is held at one target inside the band, outside
    the settings menu and with a material that is not jelly, the frames of
    the animation loop are exactly consecutive sculpt calls at that target:
    after as many frames as there are deltas, the engine is in the state that
    the same number of back-to-back calls of [sculpt] produce, and the pointer
    variables are untouched. *)
Theorem held_frames_are_sculpt_calls (a : App) (target : Vec3) (deltas : list R) :
  isMouseDown a = true ->
  isInteractingWithGUI a = false ->
  isJelly (currentMaterial (engine a)) = false ->
  vy target < clayHeight / 2 + 1 ->
  vy target > - clayHeight / 2 - 1 ->
  handle_all createGeometry
    (map (fun delta => EvAnimate delta (Some target)) deltas) a =
  Some (with_engine (sculptN (length deltas) target (engine a)) a).
Proof.
  intros Hdown Hgui Hj Hlow Hhigh. revert a Hdown Hgui Hj.
  induction deltas as [|delta deltas IH]; intros a Hdown Hgui Hj.
  - destruct a. reflexivity.
  - cbn [map handle_all handle length].
    assert (Hframe :
      animate delta (Some target) (isMouseDown a) (isInteractingWithGUI a) (engine a)
      = Returns tt (sculpt target (engine a))).
    { unfold animate, updateJellyPhysics. rewrite Hj, Hdown, Hgui. cbn [negb andb].
      destruct (Rlt_dec (vy target) (clayHeight / 2 + 1)); [|contradiction].
      destruct (Rgt_dec (vy target) (- clayHeight / 2 - 1)); [|contradiction].
      reflexivity. }
    rewrite Hframe. cbn [final_state option_map].
    rewrite IH.
    + cbn [engine with_engine isMouseDown sculptStartTime isInteractingWithGUI].
      now rewrite sculptN_after_sculpt.
    + exact Hdown.
    + exact Hgui.
    + cbn [engine with_engine].
      destruct (sculpt_frame target (engine a)) as (_ & Hm & _). now rewrite Hm.
Qed.

End GestureProperties.

(** ** When a sculpt call counts for the gesture *)

Lemma sculptVertex_touched (cfg : Config) (tR tY : R) (i : nat)
    (b : SculptBuffers) :
  sb_touched (sculptVertex cfg tR tY i b) = true <->
  sb_touched b = true \/
  exists p, sb_positions b !! i = Some p /\ Rabs (vy p - tY) < sculptRadius cfg.
Proof.
  unfold sculptVertex.
  destruct (sb_positions b !! i) as [p|].
  - destruct (Rlt_dec (Rabs (vy p - tY)) (sculptRadius cfg)) as [Hin|Hout].
    + cbv zeta. split; [eauto|]. intros _.
      destruct (sb_rest b), (sb_velocities b); reflexivity.
    + split; [auto|]. intros [Ht | (q & [= <-] & Hin)]; [exact Ht | contradiction].
  - split; [auto|]. intros [Ht | (q & Hq & _)]; [exact Ht | discriminate].
Qed.

Lemma sculptLoop_touched (cfg : Config) (target : Vec3) (fuel i : nat)
    (b : SculptBuffers) :
  sb_touched
    (sculptLoop fuel i cfg (clampTargetRadius (vx target)) (vy target) b) = true <->
  sb_touched b = true \/
  exists j p,
    (i <= j < i + fuel)%nat /\ sb_positions b !! j = Some p /\
    Rabs (vy p - vy target) < sculptRadius cfg.
Proof.
  revert i b. induction fuel as [|fuel IH]; intros i b; cbn [sculptLoop].
  - split; [auto|]. intros [Ht | (j & p & Hj & _)]; [exact Ht | lia].
  - rewrite IH, sculptVertex_touched. split.
    + intros [[Ht | (p & Hp & Hin)] | (j & p & Hj & Hp & Hin)].
      * now left.
      * right. exists i, p. split; [lia | auto].
      * right. exists j, p. split; [lia|].
        rewrite sculptVertex_lookup, decide_False in Hp by lia. auto.
    + intros [Ht | (j & p & Hj & Hp & Hin)]; [now left; left|].
      destruct (decide (i = j)) as [<-|Hne].
      * left. right. eauto.
      * right. exists j, p. split; [lia|].
        rewrite sculptVertex_lookup, decide_False by assumption. auto.
Qed.

(** X16. A [sculpt] call marks the gesture as sculpting exactly when some
    vertex lies within the influence radius of the target's height: a call
    that reaches no vertex leaves [isSculpting] as it was, and so cannot make
    the release of the pointer push a snapshot. *)
Theorem sculpt_marks_gesture (target : Vec3) (s : State) :
  isSculpting (sculpt target s) = true <->
  isSculpting s = true \/
  exists i p, positions s !! i = Some p /\
              Rabs (vy p - vy target) < sculptRadius (config s).
Proof.
  unfold sculpt. cbn [isSculpting].
  rewrite orb_true_iff, sculptLoop_touched. cbn [sb_touched sb_positions].
  split.
  - intros [Hs | [Hf | (j & p & _ & Hp & Hin)]]; [now left | discriminate | eauto].
  - intros [Hs | (i & p & Hp & Hin)]; [now left|].
    right. right. exists i, p. split; [|auto].
    pose proof (lookup_lt_Some _ _ _ Hp). lia.
Qed.

(** ** The further properties on sample inputs *)






(** The elastic buffers of the sample jelly under one sculpt call. *)
Lemma sculpt_elastic_update_witness :
  restPositions sampleJellyState = Some (sampleGeometry Cylinder) /\
  velocities sampleJellyState = Some (zeros 2) /\
  exists rest' vel',
    restPositions (sculpt sampleTarget sampleJellyState) = Some rest' /\
    velocities (sculpt sampleTarget sampleJellyState) = Some vel' /\
    length rest' = 2%nat /\ length vel' = 2%nat.
Proof.
  assert (H1 : restPositions sampleJellyState = Some (sampleGeometry Cylinder))
    by reflexivity.
  assert (H2 : velocities sampleJellyState = Some (zeros 2)) by reflexivity.
  destruct (sculpt_elastic_update sampleTarget sampleJellyState
              (sampleGeometry Cylinder) (zeros 2) H1 H2)
    as (rest' & vel' & Hr & Hv & Hlr & Hlv & _).
  split; [exact H1|]. split; [exact H2|]. exists rest', vel'. auto.
Defined.

Lemma sculpt_keeps_rest_shape_witness :
  restPositions sampleJellyState = Some (positions sampleJellyState) /\
  restPositions (sculpt sampleTarget sampleJellyState) =
    Some (positions (sculpt sampleTarget sampleJellyState)).
Proof.
  assert (H1 : restPositions sampleJellyState = Some (positions sampleJellyState))
    by reflexivity.
  exact (conj H1 (sculpt_keeps_rest_shape sampleTarget sampleJellyState H1)).
Defined.



(** Jelly selected on the sample clay, and the cube built for the sample
    jelly. *)
Lemma entering_jelly_starts_at_rest_witness :
  isJelly (currentMaterial sampleState) = false /\
  isJelly (currentMaterial sampleJellyState) = true /\
  Cube <> currentShape sampleJellyState /\
  stepN [0.016; 0.5] (changeMaterial Jelly sampleState) =
    Returns tt (changeMaterial Jelly sampleState) /\
  stepN [0.016; 0.5] (changeShape sampleGeometry Cube sampleJellyState) =
    Returns tt (changeShape sampleGeometry Cube sampleJellyState).
Proof.
  assert (H1 : isJelly (currentMaterial sampleState) = false) by reflexivity.
  assert (H2 : isJelly (currentMaterial sampleJellyState) = true) by reflexivity.
  assert (H3 : Cube <> currentShape sampleJellyState) by discriminate.
  exact (conj H1 (conj H2 (conj H3 (conj
    (proj2 (proj1 (entering_jelly_starts_at_rest sampleGeometry sampleState
                     [0.016; 0.5]) H1))
    (proj2 (proj2 (entering_jelly_starts_at_rest sampleGeometry sampleJellyState
                     [0.016; 0.5]) Cube H2 H3)))))).
Defined.

Lemma never_jelly_never_raises_witness :
  Forall (fun op => op <> OpChangeMaterial Jelly) sampleRequests /\
  exists s',
    run_ops_returning sampleGeometry sampleRequests (initialState sampleGeometry)
      = Some s' /\
    restPositions s' = None /\
    velocities s' = None.
Proof.
  assert (H1 : Forall (fun op => op <> OpChangeMaterial Jelly) sampleRequests)
    by (repeat constructor; discriminate).
  exact (conj H1 (never_jelly_never_raises sampleGeometry sampleRequests H1)).
Defined.

(** The centre of a window of 800 by 600. *)
Lemma pointerToDevice_range_witness :
  0 < 800 /\ 0 < 600 /\ 0 <= 400 <= 800 /\ 0 <= 300 <= 600 /\
  -1 <= fst (pointerToDevice 400 300 800 600) <= 1 /\
  -1 <= snd (pointerToDevice 400 300 800 600) <= 1.
Proof.
  assert (H1 : 0 < 800) by lra.
  assert (H2 : 0 < 600) by lra.
  assert (H3 : 0 <= 400 <= 800) by lra.
  assert (H4 : 0 <= 300 <= 600) by lra.
  destruct (pointerToDevice_range 400 300 800 600 H1 H2 H3 H4) as (Hx & Hy & _).
  exact (conj H1 (conj H2 (conj H3 (conj H4 (conj Hx Hy))))).
Defined.

(** Of five calls, those at 1000, 1050 and 1200 ms vibrate. *)
Lemma haptic_pulses_spaced_witness :
  hapticPulses true sampleHapticCalls 0 = [(1000, 10); (1050, 30); (1200, 50)]%Z /\
  spaced 50 (hapticPulses true sampleHapticCalls 0).
Proof.
  split; [reflexivity|].
  exact (proj1 (haptic_pulses_spaced true sampleHapticCalls 0)).
Defined.

(** A press at 0 ms, a frame whose ray misses the plane, a release at 900 ms. *)
Lemma idle_press_saves_nothing_witness :
  AppReachable sampleGeometry sampleApp /\
  isMouseDown sampleApp = false /\
  Forall idleFrame [EvAnimate 0.016 None] /\
  exists a',
    handle_all sampleGeometry
      (EvPointerDown 0 :: [EvAnimate 0.016 None] ++ [EvPointerUp 900]) sampleApp
      = Some a' /\
    historyStack (engine a') = historyStack (engine sampleApp) /\
    isMouseDown a' = false /\
    isSculpting (engine a') = false.
Proof.
  assert (H1 : AppReachable sampleGeometry sampleApp) by apply app_init.
  assert (H2 : isMouseDown sampleApp = false) by reflexivity.
  assert (H3 : Forall idleFrame [EvAnimate 0.016 None]).
  { repeat constructor. exists 0.016, None. split; [reflexivity | discriminate]. }
  exact (conj H1 (conj H2 (conj H3
           (idle_press_saves_nothing sampleGeometry sampleApp 0 900
              [EvAnimate 0.016 None] H1 H2 H3)))).
Defined.

Lemma sampleGestureApp_reachable : AppReachable sampleGeometry sampleGestureApp.
Proof.
  apply (app_step sampleGeometry (onPointerDown 0 sampleApp)
           (EvAnimate 0.016 (Some sampleTarget))).
  - apply (app_step sampleGeometry sampleApp (EvPointerDown 0));
      [apply app_init | reflexivity].
  - cbn [handle]. unfold animate.
    change (updateJellyPhysics 0.016 (engine (onPointerDown 0 sampleApp)))
      with (Returns tt sampleState).
    cbn [vy sampleTarget].
    destruct (Rlt_dec 0 (clayHeight / 2 + 1)) as [_|Hn];
      [|exfalso; apply Hn; unfold clayHeight; lra].
    destruct (Rgt_dec 0 (- clayHeight / 2 - 1)) as [_|Hn];
      [|exfalso; apply Hn; unfold clayHeight; lra].
    reflexivity.
Qed.

Lemma sampleGestureApp_sculpting : isSculpting (engine sampleGestureApp) = true.
Proof.
  cbn [engine sampleGestureApp]. unfold sculpt. cbn [isSculpting].
  apply orb_true_iff. right. apply sculptLoop_touched. right.
  exists 0%nat, sampleVertex. split; [cbn; lia|]. split; [reflexivity|].
  cbn. rewrite Rminus_diag, Rabs_R0. lra.
Qed.

(** The release of the sample gesture at 500 ms, then an undo. *)
Lemma first_undo_after_gesture_witness :
  AppReachable sampleGeometry sampleGestureApp /\
  isSculpting (engine sampleGestureApp) = true /\
  (100 < 500 - sculptStartTime sampleGestureApp)%Z /\
  exists a',
    handle_all sampleGeometry [EvPointerUp 500; EvUndo] sampleGestureApp = Some a' /\
    positions (engine a') = positions (engine sampleGestureApp) /\
    historyStack (engine a') = [].
Proof.
  assert (H1 : AppReachable sampleGeometry sampleGestureApp)
    by exact sampleGestureApp_reachable.
  assert (H3 : isSculpting (engine sampleGestureApp) = true)
    by exact sampleGestureApp_sculpting.
  assert (H4 : (100 < 500 - sculptStartTime sampleGestureApp)%Z) by (cbn; lia).
  destruct (first_undo_after_gesture sampleGeometry sampleGestureApp 500 H3 H4)
    as (a' & Hrun & Hpos & _ & Hh).
  split; [exact H1|]. split; [exact H3|]. split; [exact H4|].
  exists a'. split; [exact Hrun|]. split; [exact Hpos|].
  rewrite Hh.
  destruct (sculpt_frame sampleTarget sampleState) as (_ & _ & _ & _ & Hhist & _).
  cbn [engine sampleGestureApp]. rewrite Hhist. reflexivity.
Defined.

(** Three frames with the pointer held at the sample target, on clay. *)
Lemma held_frames_are_sculpt_calls_witness :
  isMouseDown (onPointerDown 0 sampleApp) = true /\
  isInteractingWithGUI (onPointerDown 0 sampleApp) = false /\
  isJelly (currentMaterial (engine (onPointerDown 0 sampleApp))) = false /\
  vy sampleTarget < clayHeight / 2 + 1 /\
  vy sampleTarget > - clayHeight / 2 - 1 /\
  handle_all sampleGeometry
    (map (fun delta => EvAnimate delta (Some sampleTarget)) [0.016; 0.017; 0.016])
    (onPointerDown 0 sampleApp) =
  Some (with_engine (sculptN 3 sampleTarget sampleState) (onPointerDown 0 sampleApp)).
Proof.
  assert (H1 : isMouseDown (onPointerDown 0 sampleApp) = true) by reflexivity.
  assert (H2 : isInteractingWithGUI (onPointerDown 0 sampleApp) = false)
    by reflexivity.
  assert (H3 : isJelly (currentMaterial (engine (onPointerDown 0 sampleApp))) = false)
    by reflexivity.
  assert (H4 : vy sampleTarget < clayHeight / 2 + 1)
    by (unfold clayHeight; cbn; lra).
  assert (H5 : vy sampleTarget > - clayHeight / 2 - 1)
    by (unfold clayHeight; cbn; lra).
  exact (conj H1 (conj H2 (conj H3 (conj H4 (conj H5
           (held_frames_are_sculpt_calls sampleGeometry (onPointerDown 0 sampleApp)
              sampleTarget [0.016; 0.017; 0.016] H1 H2 H3 H4 H5)))))).
Defined.

(** The sample vertex at height 0 is within 0.5 of the sample target. *)
Lemma sculpt_marks_gesture_witness :
  (exists i p, positions sampleState !! i = Some p /\
               Rabs (vy p - vy sampleTarget) < sculptRadius (config sampleState)) /\
  isSculpting (sculpt sampleTarget sampleState) = true.
Proof.
  assert (H1 : exists i p, positions sampleState !! i = Some p /\
               Rabs (vy p - vy sampleTarget) < sculptRadius (config sampleState)).
  { exists 0%nat, sampleVertex. split; [reflexivity|].
    cbn. rewrite Rminus_diag, Rabs_R0. lra. }
  exact (conj H1 (proj2 (sculpt_marks_gesture sampleTarget sampleState)
                    (or_intror H1))).
Defined.
